(** * NeuroMotion assessment wizard: a model of the React front end

    The development embeds the stateful logic of the components under
    [pk-hack/src] (App, SurveyStep, TapTestStep, SpiralCanvasStep,
    FinalDashboard, ResultsHistory) as functions on explicit state records
    and settles the properties of the natural-language specification on
    them.

    Conventions.
    - A [useState] cell is a record field, a setter call is a record update.
    - An event handler is a function from the state before the event to the
      state after it; [Date.now()] and the replies of the HTTP service are
      inputs of the handler.
    - An [async] handler of a wizard step is run to completion in one step:
      the reply of each awaited request is taken from a [Network] oracle and
      every request is appended to the log of the [World] the handler runs
      in. The loads of the history page are split at their [await], since
      several of them may be pending.
    - Seen from [App], a reply can arrive after the user has left the step
      that asked for it: the completion callbacks are operations that can
      run in any state of the orchestrator. *)

From Stdlib Require Import QArith Qround Lqa Sorted.
From stdpp Require Import base tactics option list strings gmap.

Open Scope string_scope.
Open Scope list_scope.
Open Scope Z_scope.

(** Source-order sequencing of state updates: [w |> f |> g] is [g (f w)]. *)
Notation "x |> f" := (f x) (at level 45, left associativity, only parsing).

(* ================================================================== *)
(** * The JavaScript fragments the components rely on *)
(* ================================================================== *)

Module JS.

(** The property names an object literal inherits from [Object.prototype]
    (ECMAScript, including the legacy accessors of Annex B). A lookup
    [obj[key]] with one of these keys succeeds on every object literal. *)
Definition Object_prototype : list string :=
  [ "constructor"; "hasOwnProperty"; "isPrototypeOf";
    "propertyIsEnumerable"; "toLocaleString"; "toString"; "valueOf";
    "__proto__"; "__defineGetter__"; "__defineSetter__";
    "__lookupGetter__"; "__lookupSetter__" ].

(** What [obj[key]] evaluates to for an object literal whose own
    properties are strings. *)
Inductive value :=
| Str (s : string)          (* an own property *)
| Inherited (name : string) (* a member of Object.prototype *)
| Undefined.

Fixpoint own (props : list (string * string)) (key : string) : option string :=
  match props with
  | [] => None
  | (k, v) :: rest => if String.eqb k key then Some v else own rest key
  end.

(** [obj[key]]: own properties first, then the prototype. *)
Definition get (props : list (string * string)) (key : string) : value :=
  match own props key with
  | Some v => Str v
  | None =>
      if existsb (String.eqb key) Object_prototype
      then Inherited key else Undefined
  end.

(** ToBoolean: the empty string and [undefined] are falsy. *)
Definition truthy (v : value) : bool :=
  match v with
  | Str s => negb (String.eqb s "")
  | Inherited _ => true
  | Undefined => false
  end.

(** [a || b] *)
Definition or (a b : value) : value := if truthy a then a else b.

(** [arr.slice(-n)] for [n >= 0]: the last [n] elements (all of them when
    the array is shorter). *)
Definition slice_last {A} (n : nat) (arr : list A) : list A :=
  drop (length arr - n)%nat arr.

(** [arr.slice(n)] for [n >= 0]: the array without its first [n] elements. *)
Definition slice_from {A} (n : nat) (arr : list A) : list A := drop n arr.

(** [Math.round]: the nearest integer, halves rounded up. *)
Definition Math_round (x : Q) : Z := Qfloor (x + (1 # 2))%Q.

End JS.

(* ================================================================== *)
(** * Payloads exchanged with the scoring service *)
(* ================================================================== *)

(** [response.data] of the three analyze endpoints. *)
Record SubScoreResult := mkSubScore {
  score : Q;
  metadata : string
}.

(** [response.data] of the aggregate endpoint; also an element of the
    session list. *)
Record Session := mkSession {
  session_id : string;
  timestamp : string;
  survey_score : Q;
  tap_score : Q;
  spiral_score : Q;
  overall_risk : Q;
  risk_level : string;
  recommendation : string
}.

(** The rejection value of an axios call; [response_detail] is
    [err.response?.data?.detail] ([None] when any link of the chain is
    missing). *)
Record AxiosError := mkAxiosError { response_detail : option string }.

Inductive Reply (A : Type) :=
| Resolved (data : A)
| Rejected (err : AxiosError).
Arguments Resolved {A} data.
Arguments Rejected {A} err.

(** [err.response?.data?.detail || fallback] *)
Definition detail_or (err : AxiosError) (fallback : string) : string :=
  match response_detail err with
  | Some d => if String.eqb d "" then fallback else d
  | None => fallback
  end.

(* ================================================================== *)
(** * App.jsx: the wizard orchestrator *)
(* ================================================================== *)

Module App.

(** The values [currentStep] takes: "landing", "survey", "taps",
    "spiral", "loading", "results", "history". *)
Inductive Step :=
| Landing | Survey | Taps | Spiral | Loading | Results | History.

Record TestResults := mkResults {
  survey : option SubScoreResult;
  taps : option SubScoreResult;
  spiral : option SubScoreResult;
  final : option Session
}.

Record State := mkState {
  currentStep : Step;
  testResults : TestResults
}.

Definition no_results : TestResults :=
  {| survey := None; taps := None; spiral := None; final := None |}.

(** The two [useState] initialisers. *)
Definition initial : State :=
  {| currentStep := Landing; testResults := no_results |}.

Definition setCurrentStep (s : Step) (st : State) : State :=
  {| currentStep := s; testResults := testResults st |}.

Definition setTestResults (f : TestResults -> TestResults) (st : State) : State :=
  {| currentStep := currentStep st; testResults := f (testResults st) |}.

Definition handleStartAssessment (st : State) : State :=
  st |> setCurrentStep Survey.

Definition handleSurveyComplete (result : SubScoreResult) (st : State) : State :=
  st |> setTestResults (fun prev =>
          {| survey := Some result; taps := taps prev;
             spiral := spiral prev; final := final prev |})
     |> setCurrentStep Taps.

Definition handleTapsComplete (result : SubScoreResult) (st : State) : State :=
  st |> setTestResults (fun prev =>
          {| survey := survey prev; taps := Some result;
             spiral := spiral prev; final := final prev |})
     |> setCurrentStep Spiral.

Definition handleSpiralComplete (result : SubScoreResult) (st : State) : State :=
  st |> setTestResults (fun prev =>
          {| survey := survey prev; taps := taps prev;
             spiral := Some result; final := final prev |})
     |> setCurrentStep Loading.

Definition handleFinalResults (result : Session) (st : State) : State :=
  st |> setTestResults (fun prev =>
          {| survey := survey prev; taps := taps prev;
             spiral := spiral prev; final := Some result |})
     |> setCurrentStep Results.

Definition handleRestart (st : State) : State :=
  st |> setCurrentStep Landing
     |> setTestResults (fun _ => no_results).

Definition goToHistory (st : State) : State := st |> setCurrentStep History.

Definition goHome (st : State) : State := st |> setCurrentStep Landing.

(** [showNavbar]: the bar with the Home and History buttons. *)
Definition showNavbar (st : State) : bool :=
  match currentStep st with Landing => false | _ => true end.

(** What [renderStep] mounts. ["loading"] has no case of its own and falls
    to [default], a landing page without the history button. *)
Inductive View :=
| LandingPage (onViewHistory : bool)
| WizardSurvey
| WizardTaps
| WizardSpiral
| FinalDashboard
| ResultsHistory.

Definition renderStep (st : State) : View :=
  match currentStep st with
  | Landing => LandingPage true
  | Survey => WizardSurvey
  | Taps => WizardTaps
  | Spiral => WizardSpiral
  | Results => FinalDashboard
  | History => ResultsHistory
  | Loading => LandingPage false
  end.

(** The operations of the orchestrator: its eight handlers. Four are wired
    to buttons ([Start], [Restart], [GoToHistory], [GoHome]); the other
    four are the callbacks handed to the steps, which call them from the
    continuation of a request. *)
Inductive Op :=
| Start
| SurveyComplete (r : SubScoreResult)
| TapsComplete (r : SubScoreResult)
| SpiralComplete (r : SubScoreResult)
| FinalResults (r : Session)
| Restart
| GoToHistory
| GoHome.

Definition run (op : Op) : State -> State :=
  match op with
  | Start => handleStartAssessment
  | SurveyComplete r => handleSurveyComplete r
  | TapsComplete r => handleTapsComplete r
  | SpiralComplete r => handleSpiralComplete r
  | FinalResults r => handleFinalResults r
  | Restart => handleRestart
  | GoToHistory => goToHistory
  | GoHome => goHome
  end.

(** [offered st op]: [op] can be invoked in [st]. A button handler can be
    invoked when the page rendered in [st], or the navbar, shows its
    button. A completion callback is invoked by the continuation of a
    request, which runs when the reply arrives: no handler looks at
    [currentStep], and Home, History and the fallback Start stay clickable
    while a request is pending, so the callback can run whatever page is
    shown by then. *)
Definition offered (st : State) (op : Op) : bool :=
  match op with
  | GoHome => showNavbar st
  | GoToHistory =>
      showNavbar st ||
      match renderStep st with
      | LandingPage h => h
      | FinalDashboard => true
      | _ => false
      end
  | Start => match renderStep st with LandingPage _ => true | _ => false end
  | Restart =>
      match renderStep st with FinalDashboard => true | _ => false end
  | SurveyComplete _ | TapsComplete _ | SpiralComplete _ | FinalResults _ =>
      true
  end.

(** States of the orchestrator after any sequence of such invocations. Every
    state a run of the page goes through is among them. *)
Inductive reachable : State -> Prop :=
| reach_initial : reachable initial
| reach_step st op :
    reachable st -> offered st op = true -> reachable (run op st).

(** Position of a step in the pipeline
    Landing → Survey → TapTest → Spiral → Aggregating → Results;
    the history page is outside of it. *)
Definition position (s : Step) : option nat :=
  match s with
  | Landing => Some 0%nat
  | Survey => Some 1%nat
  | Taps => Some 2%nat
  | Spiral => Some 3%nat
  | Loading => Some 4%nat
  | Results => Some 5%nat
  | History => None
  end.

(** [forward a b]: [b] is the successor of [a] in the pipeline. *)
Definition forward (a b : Step) : Prop :=
  exists n, position a = Some n /\ position b = Some (S n).

(** [backward a b]: both are pipeline steps and [b] comes before [a]. *)
Definition backward (a b : Step) : Prop :=
  exists n m, position a = Some n /\ position b = Some m /\ (m < n)%nat.

(** A slot is kept by an operation when it is unchanged or filled. *)
Definition kept {A} (before after : option A) : Prop :=
  after = before \/ exists x, after = Some x.

(** The step in which a handler is wired to the page: the landing page's
    Start button, and for a completion callback the step that receives it
    as [onComplete] / [onFinalResults] and is waiting for the reply. The
    navbar's and the dashboard's buttons belong to no pipeline step. *)
Definition own_step (op : Op) : option Step :=
  match op with
  | Start => Some Landing
  | SurveyComplete _ => Some Survey
  | TapsComplete _ => Some Taps
  | SpiralComplete _ => Some Spiral
  | FinalResults _ => Some Loading
  | Restart | GoToHistory | GoHome => None
  end.

End App.

(* ================================================================== *)
(** * Requests, the network oracle, and the world a handler runs in *)
(* ================================================================== *)

(** A canvas coordinate ([e.clientX - rect.left], [e.clientY - rect.top]). *)
Definition Point : Type := Q * Q.

(** The drawing calls issued on the 2d context after the guide spiral was
    last painted. The raster handed to [toBlob] is a function of this log. *)
Inductive CanvasCmd :=
| BeginPath
| MoveTo (p : Point)
| LineTo (p : Point)
| Stroke.

Definition Canvas : Type := list CanvasCmd.

Inductive Request :=
| PostAnalyzeSurvey (answers : gmap string Z)
| PostAnalyzeTaps (intervals : list Z)
| PostAnalyzeSpiral (png : Canvas)
| PostAggregate (survey_score tap_score : option Q) (spiral_score : Q)
| GetSessions (limit : Z)
| GetStatistics.

(** How the service answers each request. *)
Record Network := mkNetwork {
  analyze_survey : gmap string Z -> Reply SubScoreResult;
  analyze_taps : list Z -> Reply SubScoreResult;
  analyze_spiral : Canvas -> Reply SubScoreResult;
  aggregate : option Q -> option Q -> Q -> Reply Session
}.

(** A mounted step component [C] together with what it can reach: the
    orchestrator behind its [onComplete]/[onFinalResults] props, the requests
    it has sent, and the delays of the timeouts it has scheduled. *)
Record World (C : Type) := mkWorld {
  comp : C;
  app : App.State;
  sent : list Request;
  timers : list Z
}.
Arguments mkWorld {C} comp app sent timers.
Arguments comp {C} w.
Arguments app {C} w.
Arguments sent {C} w.
Arguments timers {C} w.

Definition update {C} (f : C -> C) (w : World C) : World C :=
  {| comp := f (comp w); app := app w; sent := sent w; timers := timers w |}.

Definition parent {C} (f : App.State -> App.State) (w : World C) : World C :=
  {| comp := comp w; app := f (app w); sent := sent w; timers := timers w |}.

(** [axios.post] / [axios.get]: the request leaves the browser. *)
Definition send {C} (r : Request) (w : World C) : World C :=
  {| comp := comp w; app := app w; sent := sent w ++ [r]; timers := timers w |}.

Definition setTimeout {C} (ms : Z) (w : World C) : World C :=
  {| comp := comp w; app := app w; sent := sent w; timers := timers w ++ [ms] |}.

(* ================================================================== *)
(** * SurveyStep.jsx *)
(* ================================================================== *)

Module SurveyStep.

Record Question := mkQuestion {
  id : string;
  question : string;
  description : string
}.

Definition questions : list Question :=
  [ mkQuestion "tremor"
      "Do you experience trembling or shaking in your hands, arms, legs, jaw, or face when at rest?"
      "Resting tremor is a hallmark symptom";
    mkQuestion "rigidity"
      "Do you experience stiffness in your body, arms, or legs?"
      "Muscle rigidity and resistance to movement";
    mkQuestion "bradykinesia"
      "Have you noticed slowness in your movements or difficulty initiating movement?"
      "Bradykinesia affects daily activities";
    mkQuestion "balance"
      "Do you have trouble with balance or experience episodes of poor coordination?"
      "Postural instability and balance issues";
    mkQuestion "walking"
      "Have you noticed changes in your walking pattern, such as shuffling or reduced arm swing?"
      "Gait disturbances are common" ].

Record Option_ := mkOption { value : Z; label : string; color : string }.

Definition options : list Option_ :=
  [ mkOption 0 "Never" "green";
    mkOption 1 "Rarely" "lime";
    mkOption 2 "Sometimes" "yellow";
    mkOption 3 "Often" "orange";
    mkOption 4 "Always" "red" ].

(** [answers] starts as the empty object; its keys are only ever question
    ids, none of which is a member of [JS.Object_prototype], so
    [answers[q.id]] is a lookup among the own properties. *)
Record State := mkState {
  answers : gmap string Z;
  loading : bool;
  error : option string
}.

Definition initial : State :=
  {| answers := ∅; loading := false; error := None |}.

Definition setAnswers (f : gmap string Z -> gmap string Z) (s : State) : State :=
  {| answers := f (answers s); loading := loading s; error := error s |}.
Definition setLoading (b : bool) (s : State) : State :=
  {| answers := answers s; loading := b; error := error s |}.
Definition setError (e : option string) (s : State) : State :=
  {| answers := answers s; loading := loading s; error := e |}.

Definition handleAnswerChange (questionId : string) (v : Z) (s : State) : State :=
  s |> setAnswers (fun prev => <[questionId := v]> prev).

(** [questions.every((q) => answers[q.id] !== undefined)] *)
Definition isComplete (a : gmap string Z) : bool :=
  forallb (fun q => bool_decide (is_Some (a !! id q))) questions.

Definition please_answer : string := "Please answer all questions".

Definition handleSubmit (net : Network) (w : World State) : World State :=
  let a := answers (comp w) in
  let allAnswered := isComplete a in
  if negb allAnswered then
    w |> update (setError (Some please_answer))
  else
    let w := w |> update (setLoading true)
               |> update (setError None)
               |> send (PostAnalyzeSurvey a) in
    (match analyze_survey net a with
     | Resolved data => w |> parent (App.handleSurveyComplete data)
     | Rejected err =>
         w |> update (setError
                (Some (detail_or err "Failed to submit survey. Please try again.")))
     end)
    |> update (setLoading false).

End SurveyStep.

(* ================================================================== *)
(** * TapTestStep.jsx *)
(* ================================================================== *)

Module TapTestStep.

(** The seven [useState] cells, the two refs, and [interval]: the timer
    armed by the effect of lines 18-32. The effect runs after a render in
    which [isActive] or [timeLeft] changed; the callback it hands to
    [setInterval] calls the [handleTestComplete] of that render, whose
    [tapTimestamps] is the list as it was in that render. [interval]
    holds that list while a timer is armed. *)
Record State := mkState {
  isActive : bool;
  timeLeft : Z;
  tapCount : Z;
  tapTimestamps : list Z;
  loading : bool;
  error : option string;
  showInstructions : bool;
  startTimeRef : option Z;
  lastTapRef : option Z;
  interval : option (list Z)
}.

Definition initial : State :=
  {| isActive := false; timeLeft := 10; tapCount := 0; tapTimestamps := [];
     loading := false; error := None; showInstructions := true;
     startTimeRef := None; lastTapRef := None; interval := None |}.

Definition setIsActive (b : bool) (s : State) : State :=
  {| isActive := b; timeLeft := timeLeft s; tapCount := tapCount s;
     tapTimestamps := tapTimestamps s; loading := loading s; error := error s;
     showInstructions := showInstructions s; startTimeRef := startTimeRef s;
     lastTapRef := lastTapRef s; interval := interval s |}.
Definition setTimeLeft (t : Z) (s : State) : State :=
  {| isActive := isActive s; timeLeft := t; tapCount := tapCount s;
     tapTimestamps := tapTimestamps s; loading := loading s; error := error s;
     showInstructions := showInstructions s; startTimeRef := startTimeRef s;
     lastTapRef := lastTapRef s; interval := interval s |}.
Definition setTapCount (f : Z -> Z) (s : State) : State :=
  {| isActive := isActive s; timeLeft := timeLeft s; tapCount := f (tapCount s);
     tapTimestamps := tapTimestamps s; loading := loading s; error := error s;
     showInstructions := showInstructions s; startTimeRef := startTimeRef s;
     lastTapRef := lastTapRef s; interval := interval s |}.
Definition setTapTimestamps (f : list Z -> list Z) (s : State) : State :=
  {| isActive := isActive s; timeLeft := timeLeft s; tapCount := tapCount s;
     tapTimestamps := f (tapTimestamps s); loading := loading s; error := error s;
     showInstructions := showInstructions s; startTimeRef := startTimeRef s;
     lastTapRef := lastTapRef s; interval := interval s |}.
Definition setLoading (b : bool) (s : State) : State :=
  {| isActive := isActive s; timeLeft := timeLeft s; tapCount := tapCount s;
     tapTimestamps := tapTimestamps s; loading := b; error := error s;
     showInstructions := showInstructions s; startTimeRef := startTimeRef s;
     lastTapRef := lastTapRef s; interval := interval s |}.
Definition setError (e : option string) (s : State) : State :=
  {| isActive := isActive s; timeLeft := timeLeft s; tapCount := tapCount s;
     tapTimestamps := tapTimestamps s; loading := loading s; error := e;
     showInstructions := showInstructions s; startTimeRef := startTimeRef s;
     lastTapRef := lastTapRef s; interval := interval s |}.
Definition setShowInstructions (b : bool) (s : State) : State :=
  {| isActive := isActive s; timeLeft := timeLeft s; tapCount := tapCount s;
     tapTimestamps := tapTimestamps s; loading := loading s; error := error s;
     showInstructions := b; startTimeRef := startTimeRef s;
     lastTapRef := lastTapRef s; interval := interval s |}.
Definition setStartTimeRef (t : Z) (s : State) : State :=
  {| isActive := isActive s; timeLeft := timeLeft s; tapCount := tapCount s;
     tapTimestamps := tapTimestamps s; loading := loading s; error := error s;
     showInstructions := showInstructions s; startTimeRef := Some t;
     lastTapRef := lastTapRef s; interval := interval s |}.
Definition setLastTapRef (t : Z) (s : State) : State :=
  {| isActive := isActive s; timeLeft := timeLeft s; tapCount := tapCount s;
     tapTimestamps := tapTimestamps s; loading := loading s; error := error s;
     showInstructions := showInstructions s; startTimeRef := startTimeRef s;
     lastTapRef := Some t; interval := interval s |}.
Definition setInterval (i : option (list Z)) (s : State) : State :=
  {| isActive := isActive s; timeLeft := timeLeft s; tapCount := tapCount s;
     tapTimestamps := tapTimestamps s; loading := loading s; error := error s;
     showInstructions := showInstructions s; startTimeRef := startTimeRef s;
     lastTapRef := lastTapRef s; interval := i |}.

(** [handleStart]; the two arguments are the two readings of [Date.now()]. *)
Definition handleStart (now1 now2 : Z) (w : World State) : World State :=
  w |> update (setShowInstructions false)
    |> update (setIsActive true)
    |> update (setTapCount (fun _ => 0))
    |> update (setTapTimestamps (fun _ => []))
    |> update (setTimeLeft 10)
    |> update (setStartTimeRef now1)
    |> update (setLastTapRef now2).

(** [now - lastTapRef.current]; a ref that is still [null] counts as 0. *)
Definition since (ref : option Z) (now : Z) : Z := now - default 0 ref.

Definition handleTap (now : Z) (w : World State) : World State :=
  if negb (isActive (comp w)) || (timeLeft (comp w) =? 0) then w
  else
    let interval := since (lastTapRef (comp w)) now in
    w |> update (setTapCount (fun prev => prev + 1))
      |> update (setTapTimestamps (fun prev => prev ++ [interval]))
      |> update (setLastTapRef now).

Definition not_enough_taps : string :=
  "Not enough taps recorded. Please try again with at least 3 taps.".

(** [handleTestComplete] as created by a render whose [tapTimestamps] was
    [seen]. *)
Definition handleTestComplete (net : Network) (seen : list Z)
    (w : World State) : World State :=
  let w := w |> update (setIsActive false) in
  if (Z.of_nat (length seen) <? 3) then
    w |> update (setError (Some not_enough_taps))
      |> setTimeout 3000
  else
    let w := w |> update (setLoading true)
               |> update (setError None) in
    let intervals := JS.slice_from 1 seen in
    let w := w |> send (PostAnalyzeTaps intervals) in
    (match analyze_taps net intervals with
     | Resolved data => w |> parent (App.handleTapsComplete data)
     | Rejected err =>
         w |> update (setError
                (Some (detail_or err "Failed to analyze taps. Please try again.")))
           |> setTimeout 3000
     end)
    |> update (setLoading false).

(** The callback of both [setTimeout] calls. *)
Definition onTimeout (w : World State) : World State :=
  w |> update (setShowInstructions true)
    |> update (setError None).

(** The state updater run by the armed timer:
    [setTimeLeft((prev) => { if (prev <= 1) { handleTestComplete(); return 0; }
    return prev - 1; })]. *)
Definition onInterval (net : Network) (seen : list Z)
    (w : World State) : World State :=
  let prev := timeLeft (comp w) in
  if prev <=? 1 then
    w |> handleTestComplete net seen
      |> update (setTimeLeft 0)
  else
    w |> update (setTimeLeft (prev - 1)).

(** The effect of lines 18-32, run after the render that follows an
    event: when a dependency changed, the old timer is cleared and, if the
    test is still running, a new one is armed with the callbacks of this
    render. *)
Definition useEffect (before : State) (w : World State) : World State :=
  let after := comp w in
  if Bool.eqb (isActive before) (isActive after)
     && (timeLeft before =? timeLeft after)
  then w
  else if isActive after && (0 <? timeLeft after)
  then w |> update (setInterval (Some (tapTimestamps after)))
  else w |> update (setInterval None).

Inductive Event :=
| ClickStart (now1 now2 : Z)   (* the "Start Test" button *)
| ClickTap (now : Z)           (* the "TAP HERE" button *)
| Tick                         (* the armed timer fires *)
| Timeout.                     (* the oldest scheduled timeout fires *)

(** One event, handled by the callbacks of the current render, followed by
    the next render and its effect. A control that is not rendered, or a
    timer that is not armed, produces no event. *)
Definition step (net : Network) (ev : Event) (w : World State) : World State :=
  let s := comp w in
  match ev with
  | ClickStart now1 now2 =>
      if negb (isActive s) && negb (loading s) && negb (bool_decide (is_Some (error s)))
      then w |> handleStart now1 now2 |> useEffect s
      else w
  | ClickTap now =>
      if isActive s then w |> handleTap now |> useEffect s else w
  | Tick =>
      match interval s with
      | Some seen => w |> onInterval net seen |> useEffect s
      | None => w
      end
  | Timeout =>
      match timers w with
      | _ :: rest =>
          {| comp := comp w; app := app w; sent := sent w; timers := rest |}
          |> onTimeout |> useEffect s
      | [] => w
      end
  end.

Definition run (net : Network) (evs : list Event) (w : World State) : World State :=
  fold_left (fun w ev => step net ev w) evs w.

(** The component as mounted by the orchestrator in the tap step. *)
Definition mounted (a : App.State) : World State :=
  {| comp := initial; app := a; sent := []; timers := [] |}.

(** The intervals between consecutive timestamps, the first one measured
    from [t0]. *)
Fixpoint deltas (t0 : Z) (ts : list Z) : list Z :=
  match ts with
  | [] => []
  | t :: rest => (t - t0) :: deltas t rest
  end.

(** A timer armed in some render holds a prefix of the intervals recorded
    since; it is armed only while the test is active. *)
Definition interval_lags (w : World State) : Prop :=
  match interval (comp w) with
  | Some seen =>
      isActive (comp w) = true
      /\ exists later, tapTimestamps (comp w) = seen ++ later
  | None => True
  end.

End TapTestStep.

(* ================================================================== *)
(** * SpiralCanvasStep.jsx *)
(* ================================================================== *)

Module SpiralCanvasStep.

(** The four [useState] cells and the content of the canvas behind
    [canvasRef]. An empty [canvas] is the untouched guide spiral. *)
Record State := mkState {
  isDrawing : bool;
  hasDrawn : bool;
  loading : bool;
  error : option string;
  canvas : Canvas
}.

(** After the mount effect has painted the guide. *)
Definition initial : State :=
  {| isDrawing := false; hasDrawn := false; loading := false;
     error := None; canvas := [] |}.

Definition setIsDrawing (b : bool) (s : State) : State :=
  {| isDrawing := b; hasDrawn := hasDrawn s; loading := loading s;
     error := error s; canvas := canvas s |}.
Definition setHasDrawn (b : bool) (s : State) : State :=
  {| isDrawing := isDrawing s; hasDrawn := b; loading := loading s;
     error := error s; canvas := canvas s |}.
Definition setLoading (b : bool) (s : State) : State :=
  {| isDrawing := isDrawing s; hasDrawn := hasDrawn s; loading := b;
     error := error s; canvas := canvas s |}.
Definition setError (e : option string) (s : State) : State :=
  {| isDrawing := isDrawing s; hasDrawn := hasDrawn s; loading := loading s;
     error := e; canvas := canvas s |}.
(** Calls on [canvas.getContext("2d")]. *)
Definition ctx (cmds : list CanvasCmd) (s : State) : State :=
  {| isDrawing := isDrawing s; hasDrawn := hasDrawn s; loading := loading s;
     error := error s; canvas := canvas s ++ cmds |}.

(** [drawGuideSpiral]: [clearRect] over the whole canvas, then the guide. *)
Definition drawGuideSpiral (s : State) : State :=
  {| isDrawing := isDrawing s; hasDrawn := hasDrawn s; loading := loading s;
     error := error s; canvas := [] |}.

Definition startDrawing (p : Point) (s : State) : State :=
  s |> ctx [BeginPath; MoveTo p]
    |> setIsDrawing true
    |> setHasDrawn true.

Definition draw (p : Point) (s : State) : State :=
  if negb (isDrawing s) then s
  else s |> ctx [LineTo p; Stroke].

Definition stopDrawing (s : State) : State := s |> setIsDrawing false.

Definition handleClear (s : State) : State :=
  s |> drawGuideSpiral |> setHasDrawn false.

Definition please_draw : string := "Please draw a spiral before submitting".

(** The step is on the page only while [App.renderStep] mounts it. *)
Definition rendered (a : App.State) : bool :=
  match App.renderStep a with
  | App.WizardSpiral => true
  | _ => false
  end.

(** A state setter called after the handler has told the orchestrator to
    move on: once the step is no longer rendered it is unmounted, its state
    is gone, and React ignores the call. The last state of the step stays in
    [comp]; nothing of it is displayed while [rendered] is false. *)
Definition setState (f : State -> State) (w : World State) : World State :=
  if rendered (app w) then w |> update f else w.

(** What the page shows of the step's error message. *)
Definition shownError (w : World State) : option string :=
  if rendered (app w) then error (comp w) else None.

(** [handleSubmit]. [surveyScore] and [tapScore] are the props of the
    render the click happened in: [testResults.survey?.score] and
    [testResults.taps?.score]. The step that handles the click is mounted
    and stays so until it calls [onComplete]; the [catch] block is one block
    in the source, reached either before that call (the spiral analysis was
    rejected) or after it (the aggregation was rejected), when its setters
    reach the step only if it is still rendered. *)
Definition handleSubmit (net : Network) (w : World State) : World State :=
  let surveyScore := score <$> App.survey (App.testResults (app w)) in
  let tapScore := score <$> App.taps (App.testResults (app w)) in
  let message (err : AxiosError) :=
    Some (detail_or err "Failed to analyze spiral. Please try again.") in
  if negb (hasDrawn (comp w)) then
    w |> update (setError (Some please_draw))
  else
    let w := w |> update (setLoading true)
               |> update (setError None) in
    let blob := canvas (comp w) in
    let w := w |> send (PostAnalyzeSpiral blob) in
    match analyze_spiral net blob with
    | Rejected err =>
        w |> update (setError (message err))
          |> update (setLoading false)
    | Resolved spiralData =>
        let w := w |> parent (App.handleSpiralComplete spiralData)
                   |> send (PostAggregate surveyScore tapScore (score spiralData)) in
        match aggregate net surveyScore tapScore (score spiralData) with
        | Rejected err =>
            w |> setState (setError (message err))
              |> setState (setLoading false)
        | Resolved finalData => w |> parent (App.handleFinalResults finalData)
        end
    end.

(** The operations of the capture: the three mouse handlers of the canvas
    ([onMouseUp] and [onMouseLeave] both end the stroke) and the two
    buttons. *)
Inductive Op :=
| BeginStroke (p : Point)
| ExtendStroke (p : Point)
| EndStroke
| Clear
| Submit.

Definition step (net : Network) (op : Op) (w : World State) : World State :=
  match op with
  | BeginStroke p => w |> update (startDrawing p)
  | ExtendStroke p => w |> update (draw p)
  | EndStroke => w |> update stopDrawing
  | Clear => w |> update handleClear
  | Submit => w |> handleSubmit net
  end.

Definition run (net : Network) (ops : list Op) (w : World State) : World State :=
  fold_left (fun w op => step net op w) ops w.

Definition mounted (a : App.State) : World State :=
  {| comp := initial; app := a; sent := []; timers := [] |}.

(** [no_clear ops]: the canvas is not cleared in [ops]. *)
Definition no_clear (ops : list Op) : bool :=
  forallb (fun op => match op with Clear => false | _ => true end) ops.

(** [begun_since_clear ops]: some stroke was begun in [ops] and no
    [Clear] came after it. *)
Fixpoint begun_since_clear (ops : list Op) : bool :=
  match ops with
  | [] => false
  | BeginStroke _ :: rest => no_clear rest || begun_since_clear rest
  | _ :: rest => begun_since_clear rest
  end.

(** [inked c]: a segment has been painted over the guide, so the canvas
    differs from the untouched guide. [beginPath] and [moveTo] paint
    nothing; [draw] is the only handler that paints. *)
Definition inked (c : Canvas) : bool :=
  existsb (fun cmd => match cmd with LineTo _ => true | _ => false end) c.

End SpiralCanvasStep.

(* ================================================================== *)
(** * FinalDashboard.jsx *)
(* ================================================================== *)

(** How a risk level reaches the screen: the text shown and the colour or
    class looked up for it. *)
Record RiskBadge := mkBadge {
  shown_level : string;
  paint : JS.value
}.

(** The five categories of the contract, in increasing order. *)
Definition risk_levels : list string :=
  [ "Low"; "Low-Moderate"; "Moderate"; "Moderate-High"; "High" ].

Module FinalDashboard.

Definition colors : list (string * string) :=
  [ ("Low", "green"); ("Low-Moderate", "lime"); ("Moderate", "yellow");
    ("Moderate-High", "orange"); ("High", "red") ].

Definition getRiskColor (level : string) : JS.value :=
  JS.or (JS.get colors level) (JS.Str "gray").

Definition gradients : list (string * string) :=
  [ ("Low", "from-green-500 to-green-600");
    ("Low-Moderate", "from-lime-500 to-green-600");
    ("Moderate", "from-yellow-500 to-orange-500");
    ("Moderate-High", "from-orange-500 to-red-500");
    ("High", "from-red-500 to-red-600") ].

Definition getRiskGradient (level : string) : JS.value :=
  JS.or (JS.get gradients level) (JS.Str "from-gray-500 to-gray-600").

(** The "Risk Level: ..." badge; [None] is the "No results available"
    page shown when [results.final] is missing. *)
Definition riskBadge (results : App.TestResults) : option RiskBadge :=
  match App.final results with
  | None => None
  | Some final =>
      Some {| shown_level := risk_level final;
              paint := getRiskGradient (risk_level final) |}
  end.

(** [getScoreColor]: green below 30, yellow below 60, red otherwise. *)
Definition getScoreColor (score : Q) : string :=
  if negb (Qle_bool 30 score) then "text-green-600"
  else if negb (Qle_bool 60 score) then "text-yellow-600"
  else "text-red-600".

(** One card of the test breakdown: the name, the number printed
    ([Math.round(test.score)]) and the colour class of that number
    ([getScoreColor(test.score)]). *)
Record TestCard := mkCard {
  card_name : string;
  card_number : Z;
  card_color : string
}.

Definition testCard (name : string) (score : Q) : TestCard :=
  {| card_name := name;
     card_number := JS.Math_round score;
     card_color := getScoreColor score |}.

(** [testDetails.map(...)] *)
Definition testDetails (final : Session) : list TestCard :=
  [ testCard "Symptom Survey" (survey_score final);
    testCard "Tap Test" (tap_score final);
    testCard "Spiral Drawing" (spiral_score final) ].

End FinalDashboard.

(* ================================================================== *)
(** * ResultsHistory.jsx *)
(* ================================================================== *)

Module ResultsHistory.

(** [statsRes.data] *)
Record Summary := mkSummary {
  total_sessions : Z;
  avg_risk : Q;
  min_risk : Q;
  max_risk : Q
}.

Record Statistics := mkStatistics {
  statistics_ : Summary;
  risk_distribution : list (string * Z)
}.

(** The [useState] cells ([sortOrder], which is never read or set, is left
    out), the log of requests, and the loads whose [Promise.all] has not
    settled yet (by sequence number). *)
Record State := mkState {
  sessions : list Session;
  statistics : option Statistics;
  loading : bool;
  error : option string;
  activeTab : string;
  requests : list Request;
  issued : nat;
  inflight : list nat
}.

Definition initial : State :=
  {| sessions := []; statistics := None; loading := true; error := None;
     activeTab := "overview"; requests := []; issued := 0; inflight := [] |}.

Definition setSessions (l : list Session) (s : State) : State :=
  {| sessions := l; statistics := statistics s; loading := loading s;
     error := error s; activeTab := activeTab s; requests := requests s;
     issued := issued s; inflight := inflight s |}.
Definition setStatistics (x : option Statistics) (s : State) : State :=
  {| sessions := sessions s; statistics := x; loading := loading s;
     error := error s; activeTab := activeTab s; requests := requests s;
     issued := issued s; inflight := inflight s |}.
Definition setLoading (b : bool) (s : State) : State :=
  {| sessions := sessions s; statistics := statistics s; loading := b;
     error := error s; activeTab := activeTab s; requests := requests s;
     issued := issued s; inflight := inflight s |}.
Definition setError (e : option string) (s : State) : State :=
  {| sessions := sessions s; statistics := statistics s; loading := loading s;
     error := e; activeTab := activeTab s; requests := requests s;
     issued := issued s; inflight := inflight s |}.
Definition setActiveTab (t : string) (s : State) : State :=
  {| sessions := sessions s; statistics := statistics s; loading := loading s;
     error := error s; activeTab := t; requests := requests s;
     issued := issued s; inflight := inflight s |}.

(** [Promise.all([axios.get(sessions), axios.get(statistics)])]: both
    requests leave at once and the load is awaited. *)
Definition promiseAll (s : State) : State :=
  {| sessions := sessions s; statistics := statistics s; loading := loading s;
     error := error s; activeTab := activeTab s;
     requests := requests s ++ [GetSessions 100; GetStatistics];
     issued := S (issued s); inflight := inflight s ++ [issued s] |}.

Definition settled (n : nat) (s : State) : State :=
  {| sessions := sessions s; statistics := statistics s; loading := loading s;
     error := error s; activeTab := activeTab s; requests := requests s;
     issued := issued s;
     inflight := filter (fun m => m ≠ n) (inflight s) |}.

(** [fetchData] up to its [await]. *)
Definition fetchData (s : State) : State :=
  s |> setLoading true |> promiseAll.

(** [fetchData] from its [await] on, for the load numbered [n]. *)
Definition fetchData_resume (n : nat)
    (reply : Reply (list Session * Statistics)) (s : State) : State :=
  (match reply with
   | Resolved (sessionsRes, statsRes) =>
       s |> setSessions sessionsRes
         |> setStatistics (Some statsRes)
         |> setError None
   | Rejected _ =>
       s |> setError (Some "Failed to load results history")
   end)
  |> setLoading false
  |> settled n.

(** The page returns the spinner alone while [loading]; otherwise the
    tabs and the "Refresh Data" button, which carries
    [disabled={loading}]. *)
Definition refreshOffered (s : State) : bool := negb (loading s).

Inductive Event :=
| Mount                                              (* the mount effect *)
| ClickRefresh
| ClickTab (tab : string)
| Settle (n : nat) (reply : Reply (list Session * Statistics)).

(** The handler behind each event, whether or not the page offers it. *)
Definition handle (ev : Event) (s : State) : State :=
  match ev with
  | Mount | ClickRefresh => fetchData s
  | ClickTab tab => setActiveTab tab s
  | Settle n reply =>
      if bool_decide (n ∈ inflight s) then fetchData_resume n reply s else s
  end.

(** The events the rendered page can deliver. *)
Definition offered (s : State) (ev : Event) : bool :=
  match ev with
  | Mount => false
  | ClickRefresh | ClickTab _ => refreshOffered s
  | Settle n _ => bool_decide (n ∈ inflight s)
  end.

(** States of a page driven through its own controls, from the mount on. *)
Inductive reachable : State -> Prop :=
| reach_mount : reachable (handle Mount initial)
| reach_event s ev :
    reachable s -> offered s ev = true -> reachable (handle ev s).

(** While a page driven through its controls is loading, exactly the load
    issued last is in flight; otherwise none is. *)
Definition one_load_at_a_time (s : State) : Prop :=
  (loading s = true /\ inflight s = [pred (issued s)] /\ (1 <= issued s)%nat)
  \/ (loading s = false /\ inflight s = []).

(** The load whose result an event stores, if it stores one: [setSessions]
    and [setStatistics] run only on a resolved load. *)
Definition stores (ev : Event) : list nat :=
  match ev with
  | Settle n (Resolved _) => [n]
  | _ => []
  end.

(** A run of the page from the state [s] on: the events are delivered in
    turn, one the page does not offer is not delivered. Beside the state the
    run keeps the list of the loads whose results were stored, in the order
    they were stored. *)
Fixpoint drive (evs : list Event) (s : State) (applied : list nat)
    : State * list nat :=
  match evs with
  | [] => (s, applied)
  | ev :: rest =>
      if offered s ev
      then drive rest (handle ev s) (applied ++ stores ev)
      else drive rest s applied
  end.

Definition RISK_COLORS : list (string * string) :=
  [ ("Low", "#10b981"); ("Low-Moderate", "#84cc16"); ("Moderate", "#f59e0b");
    ("Moderate-High", "#f97316"); ("High", "#ef4444") ].

Definition getRiskBadgeColor (riskLevel : string) : JS.value :=
  JS.or (JS.get RISK_COLORS riskLevel) (JS.Str "#6b7280").

(** The risk-level cell of a row of the details table. *)
Definition riskBadge (session : Session) : RiskBadge :=
  {| shown_level := risk_level session;
     paint := getRiskBadgeColor (risk_level session) |}.


Record TrendPoint := mkPoint {
  date : string;
  risk : Z;
  survey : Z;
  tap : Z;
  spiral : Z;
  point_timestamp : string
}.

(** [sessions[0]] *)
Definition latestSession (sessions : list Session) : option Session :=
  head sessions.

Record RadarAxis := mkAxis {
  component : string;
  axis_value : Z;
  fullMark : Z
}.

(** [latestScores]: the three axes of the radar chart, or no axis at all
    when there is no session. *)
Definition latestScores (sessions : list Session) : list RadarAxis :=
  match latestSession sessions with
  | Some latest =>
      [ mkAxis "Survey" (JS.Math_round (survey_score latest)) 100;
        mkAxis "Tap Test" (JS.Math_round (tap_score latest)) 100;
        mkAxis "Spiral" (JS.Math_round (spiral_score latest)) 100 ]
  | None => []
  end.

Section Charts.

(** [new Date(ts).toLocaleDateString("en-US", {month: "short", day:
    "numeric"})], a function of the browser. *)
Variable toLocaleDateString : string -> string.

Definition trendPoint (session : Session) : TrendPoint :=
  {| date := toLocaleDateString (timestamp session);
     risk := JS.Math_round (overall_risk session);
     survey := JS.Math_round (survey_score session);
     tap := JS.Math_round (tap_score session);
     spiral := JS.Math_round (spiral_score session);
     point_timestamp := timestamp session |}.

(** [sessions.slice().reverse().map(...).slice(-30)] *)
Definition trendData (sessions : list Session) : list TrendPoint :=
  JS.slice_last 30 (map trendPoint (reverse sessions)).

(** [trendData.slice(-10)], the data of the comparison chart. *)
Definition comparisonData (sessions : list Session) : list TrendPoint :=
  JS.slice_last 10 (trendData sessions).

End Charts.

End ResultsHistory.

(* ================================================================== *)
(** * ui/Button.jsx *)
(* ================================================================== *)

Module Button.

(** The props the steps set; [hasIcon] tells whether an [icon] was passed. *)
Record Props := mkProps {
  variant : string;
  size : string;
  loading : bool;
  disabled : bool;
  hasIcon : bool
}.

(** The defaults of the destructuring pattern. *)
Definition defaults : Props :=
  {| variant := "primary"; size := "md"; loading := false;
     disabled := false; hasIcon := false |}.

Definition variants : list (string * string) :=
  [ ("primary",
     "bg-gradient-to-r from-primary-600 to-primary-500 text-white shadow-md hover:shadow-lg hover:-translate-y-0.5 focus:ring-primary-400");
    ("secondary",
     "bg-white text-primary-700 border-2 border-primary-200 hover:bg-primary-50 hover:border-primary-300 focus:ring-primary-300");
    ("outline",
     "bg-transparent text-gray-700 border-2 border-gray-300 hover:bg-gray-50 hover:border-gray-400 focus:ring-gray-300");
    ("danger",
     "bg-gradient-to-r from-red-600 to-red-500 text-white shadow-md hover:shadow-lg hover:-translate-y-0.5 focus:ring-red-400");
    ("ghost", "bg-transparent text-gray-700 hover:bg-gray-100 focus:ring-gray-300") ].

Definition sizes : list (string * string) :=
  [ ("sm", "px-4 py-2 text-sm");
    ("md", "px-6 py-3 text-base");
    ("lg", "px-8 py-4 text-lg") ].

(** [variants[variant] || variants.primary] *)
Definition variantClass (p : Props) : JS.value :=
  JS.or (JS.get variants (variant p)) (JS.get variants "primary").

(** [sizes[size] || sizes.md] *)
Definition sizeClass (p : Props) : JS.value :=
  JS.or (JS.get sizes (size p)) (JS.get sizes "md").

(** What reaches the [<button>] element: its [disabled] attribute, and
    which of the spinner and the icon is rendered before the label. *)
Record Rendered := mkRendered {
  disabledAttr : bool;
  spinner : bool;
  icon : bool
}.

Definition render (p : Props) : Rendered :=
  {| disabledAttr := disabled p || loading p;
     spinner := loading p;
     icon := negb (loading p) && hasIcon p |}.

(** A disabled [<button>] dispatches no click, so [onClick] runs only when
    the attribute is off. *)
Definition clickable (p : Props) : bool := negb (disabledAttr (render p)).

End Button.

(* ================================================================== *)
(** * WizardContainer.jsx *)
(* ================================================================== *)

Module WizardContainer.

Record StepInfo := mkStep { id : string; name : string }.

Definition steps : list StepInfo :=
  [ mkStep "survey" "Symptom Survey";
    mkStep "taps" "Tap Test";
    mkStep "spiral" "Spiral Drawing" ].

(** [Array.prototype.findIndex]: the index of the first element that
    satisfies [p], or -1. *)
Fixpoint findIndex {A} (p : A -> bool) (arr : list A) : Z :=
  match arr with
  | [] => -1
  | x :: rest =>
      if p x then 0
      else match findIndex p rest with
           | -1 => -1
           | i => i + 1
           end
  end.

Definition currentIndex (currentStep : string) : Z :=
  findIndex (fun s => String.eqb (id s) currentStep) steps.

(** The marks of the step drawn at [index]. *)
Definition isCompleted (currentStep : string) (index : Z) : bool :=
  index <? currentIndex currentStep.

Definition isCurrent (currentStep : string) (index : Z) : bool :=
  index =? currentIndex currentStep.

(** The string [App] holds in [currentStep] and passes as the prop. *)
Definition stepName (s : App.Step) : string :=
  match s with
  | App.Landing => "landing"
  | App.Survey => "survey"
  | App.Taps => "taps"
  | App.Spiral => "spiral"
  | App.Loading => "loading"
  | App.Results => "results"
  | App.History => "history"
  end.

End WizardContainer.

(* ================================================================== *)
(** * SurveyStep.jsx, as rendered *)
(* ================================================================== *)

Module SurveyForm.

(** [<Button size="lg" onClick={handleSubmit} disabled={!isComplete}
    loading={loading}>] *)
Definition continueButton (s : SurveyStep.State) : Button.Props :=
  {| Button.variant := "primary"; Button.size := "lg";
     Button.loading := SurveyStep.loading s;
     Button.disabled := negb (SurveyStep.isComplete (SurveyStep.answers s));
     Button.hasIcon := false |}.

(** The controls of the form: one button per question and option (by their
    positions in [questions] and [options]) and the Continue button. *)
Inductive Event :=
| ClickOption (questionIndex optionIndex : nat)
| ClickContinue.

Definition step (net : Network) (ev : Event)
    (w : World SurveyStep.State) : World SurveyStep.State :=
  match ev with
  | ClickOption qi oi =>
      match SurveyStep.questions !! qi, SurveyStep.options !! oi with
      | Some q, Some o =>
          w |> update (SurveyStep.handleAnswerChange
                         (SurveyStep.id q) (SurveyStep.value o))
      | _, _ => w
      end
  | ClickContinue =>
      if Button.clickable (continueButton (comp w))
      then w |> SurveyStep.handleSubmit net
      else w
  end.

Definition run (net : Network) (evs : list Event)
    (w : World SurveyStep.State) : World SurveyStep.State :=
  fold_left (fun w ev => step net ev w) evs w.

Definition mounted (a : App.State) : World SurveyStep.State :=
  {| comp := SurveyStep.initial; app := a; sent := []; timers := [] |}.

End SurveyForm.

(* ================================================================== *)
(** * TapTestStep.jsx, as rendered *)
(* ================================================================== *)

Module TapTestView.

(** [!isActive && !loading && !error]: the "Start Test" button is there. *)
Definition startOffered (s : TapTestStep.State) : bool :=
  negb (TapTestStep.isActive s) && negb (TapTestStep.loading s)
  && negb (bool_decide (is_Some (TapTestStep.error s))).

(** [showInstructions && !isActive] *)
Definition instructionsShown (s : TapTestStep.State) : bool :=
  TapTestStep.showInstructions s && negb (TapTestStep.isActive s).

(** The number of times "Start Test" is clicked in a sequence of events. *)
Fixpoint starts (evs : list TapTestStep.Event) : nat :=
  match evs with
  | [] => 0
  | TapTestStep.ClickStart _ _ :: rest => S (starts rest)
  | _ :: rest => starts rest
  end.

(** [clock t evs]: the readings of [Date.now()] in [evs] never go back,
    starting from [t]. *)
Fixpoint clock (t : Z) (evs : list TapTestStep.Event) : Prop :=
  match evs with
  | [] => True
  | TapTestStep.ClickStart now1 now2 :: rest =>
      t <= now1 /\ now1 <= now2 /\ clock now2 rest
  | TapTestStep.ClickTap now :: rest => t <= now /\ clock now rest
  | _ :: rest => clock t rest
  end.

(** The sum of a list of intervals. *)
Definition total (l : list Z) : Z := fold_right Z.add 0 l.

End TapTestView.

(* ================================================================== *)
(** * Statements of the specification and sample runs *)
(* ================================================================== *)

(** C4, as the specification words it: every operation invoked in a
    reachable state either moves to the next step of the pipeline or is
    [Restart] (back at the initial state); moves into and out of the
    orthogonal history page are set aside. *)
Definition only_restart_moves_backward : Prop :=
  forall st op,
    App.reachable st -> App.offered st op = true ->
    App.forward (App.currentStep st) (App.currentStep (App.run op st))
    \/ (op = App.Restart /\ App.run op st = App.initial)
    \/ App.currentStep (App.run op st) = App.History
    \/ App.currentStep st = App.History.

(** The five fixed question ids. *)
Definition question_ids : list string :=
  map SurveyStep.id SurveyStep.questions.

(** A filled-in questionnaire and an untouched one. *)
Definition all_sometimes : gmap string Z :=
  <["tremor" := 2]> (<["rigidity" := 0]> (<["bradykinesia" := 4]>
    (<["balance" := 1]> (<["walking" := 3]> ∅)))).

Definition survey_world (a : gmap string Z) : World SurveyStep.State :=
  {| comp := SurveyStep.mkState a false None; app := App.handleStartAssessment App.initial;
     sent := []; timers := [] |}.

Definition offline : Network :=
  {| analyze_survey := fun _ => Rejected (mkAxiosError None);
     analyze_taps := fun _ => Rejected (mkAxiosError None);
     analyze_spiral := fun _ => Rejected (mkAxiosError None);
     aggregate := fun _ _ _ => Rejected (mkAxiosError None) |}.

(** "Completion fails with InsufficientDataError": the message is shown and
    nothing was sent. *)
Definition fails_with_insufficient_data (net : Network) (seen : list Z)
    (w : World TapTestStep.State) : Prop :=
  let w' := TapTestStep.handleTestComplete net seen w in
  sent w' = sent w
  /\ TapTestStep.error (comp w') = Some TapTestStep.not_enough_taps.

(** C1, as the specification words it: completion fails exactly when fewer
    than 3 intervals remain after the first one is dropped. *)
Definition fails_iff_under_three_after_drop : Prop :=
  forall net seen w,
    fails_with_insufficient_data net seen w
    <-> (length (JS.slice_from 1 seen) < 3)%nat.

(** A test with three taps, all in the first second, left to expire. *)
Definition three_taps : list TapTestStep.Event :=
  [ TapTestStep.ClickStart 0 0; TapTestStep.ClickTap 100;
    TapTestStep.ClickTap 300; TapTestStep.ClickTap 650 ]
  ++ repeat TapTestStep.Tick 10.

(** Two taps in the first second and nine ticks: the countdown is about to
    run out. *)
Definition two_taps_nine_ticks : World TapTestStep.State :=
  TapTestStep.run offline
    ([TapTestStep.ClickStart 0 0; TapTestStep.ClickTap 100;
      TapTestStep.ClickTap 300] ++ repeat TapTestStep.Tick 9)
    (TapTestStep.mounted App.initial).

(** A test with four taps in the first second and a fifth one in the last
    second, left to expire. *)
Definition tap_in_last_second : list TapTestStep.Event :=
  [ TapTestStep.ClickStart 0 0; TapTestStep.ClickTap 100;
    TapTestStep.ClickTap 300; TapTestStep.ClickTap 650;
    TapTestStep.ClickTap 900 ]
  ++ repeat TapTestStep.Tick 9
  ++ [ TapTestStep.ClickTap 9500; TapTestStep.Tick ].

(** A service whose analyses succeed and whose aggregation is down. *)
Definition aggregate_down : Network :=
  {| analyze_survey := fun _ => Resolved (mkSubScore 35 "survey");
     analyze_taps := fun _ => Resolved (mkSubScore 50 "taps");
     analyze_spiral := fun _ => Resolved (mkSubScore 65 "spiral");
     aggregate := fun _ _ _ =>
       Rejected (mkAxiosError (Some "Aggregation failed")) |}.

(** The spiral step reached through the wizard, with one stroke drawn. *)
Definition spiral_drawn : World SpiralCanvasStep.State :=
  SpiralCanvasStep.run aggregate_down
    [ SpiralCanvasStep.BeginStroke (300 # 1, 300 # 1)%Q;
      SpiralCanvasStep.ExtendStroke (320 # 1, 310 # 1)%Q;
      SpiralCanvasStep.EndStroke ]
    (SpiralCanvasStep.mounted
       (App.handleTapsComplete (mkSubScore 50 "taps")
          (App.handleSurveyComplete (mkSubScore 35 "survey")
             (App.handleStartAssessment App.initial)))).


(** C8, as the specification words it: submitting is refused exactly when
    no stroke has been drawn, that is when the canvas is the untouched
    guide; once something has been drawn it posts the canvas. *)
Definition submit_refused_iff_nothing_drawn : Prop :=
  forall net ops a,
    let w := SpiralCanvasStep.run net ops (SpiralCanvasStep.mounted a) in
    let w' := SpiralCanvasStep.step net SpiralCanvasStep.Submit w in
    if SpiralCanvasStep.inked (SpiralCanvasStep.canvas (comp w))
    then exists rest,
           sent w' = sent w
                     ++ PostAnalyzeSpiral (SpiralCanvasStep.canvas (comp w)) :: rest
    else sent w' = sent w
         /\ SpiralCanvasStep.error (comp w') = Some SpiralCanvasStep.please_draw.

Definition session_of_march : Session :=
  mkSession "s-1" "2024-03-01T09:00:00" 20 30 40 30 "Low-Moderate" "".
Definition session_of_april : Session :=
  mkSession "s-2" "2024-04-01T09:00:00" 60 70 80 70 "Moderate-High" "".
Definition stats_of (n : Z) : ResultsHistory.Statistics :=
  ResultsHistory.mkStatistics (ResultsHistory.mkSummary n 50 30 70) [].

(** A wizard run to its end by a service that answers everything. *)
Definition completed_run : App.State :=
  fold_left (fun st op => App.run op st)
    [ App.Start; App.SurveyComplete (mkSubScore 35 "survey");
      App.TapsComplete (mkSubScore 50 "taps");
      App.SpiralComplete (mkSubScore 65 "spiral");
      App.FinalResults (mkSession "s-1" "2024-03-01T09:00:00" 35 50 65 50
                          "Moderate" "See a doctor") ]
    App.initial.

(** What the form keeps true of its answers: only question ids are keys
    and only the severities of the option buttons are values. *)
Definition answers_well_formed (a : gmap string Z) : Prop :=
  forall q v, a !! q = Some v -> In q question_ids /\ 0 <= v <= 4.

(** What the service is sent: a mapping with exactly the five ids, each
    with a severity in 0..4. *)
Definition complete_payload (r : Request) : Prop :=
  exists a,
    r = PostAnalyzeSurvey a
    /\ (forall q, is_Some (a !! q) <-> In q question_ids)
    /\ (forall q v, a !! q = Some v -> 0 <= v <= 4).

(** A request of the tap test: intervals, at least two of them. *)
Definition two_or_more (r : Request) : Prop :=
  exists l, r = PostAnalyzeTaps l /\ (2 <= length l)%nat.

(** What every render of the tap test has in common. *)
Definition tap_consistent (w : World TapTestStep.State) : Prop :=
  let s := comp w in
  TapTestStep.tapCount s = Z.of_nat (length (TapTestStep.tapTimestamps s))
  /\ 0 <= TapTestStep.timeLeft s <= 10
  /\ TapTestStep.loading s = false
  /\ (if TapTestStep.isActive s
      then 1 <= TapTestStep.timeLeft s
           /\ is_Some (TapTestStep.interval s)
           /\ TapTestStep.error s = None
           /\ timers w = []
      else TapTestStep.interval s = None
           /\ ((TapTestStep.error s = None /\ timers w = [])
               \/ (is_Some (TapTestStep.error s) /\ timers w = [3000])))
  /\ Forall two_or_more (sent w).

(** What a clock that never goes back keeps true: the intervals on record
    are not negative, and while the test runs the last tap is not in the
    future. *)
Definition clock_invariant (t : Z) (w : World TapTestStep.State) : Prop :=
  Forall (fun i => 0 <= i) (TapTestStep.tapTimestamps (comp w))
  /\ (TapTestStep.isActive (comp w) = true ->
      exists l, TapTestStep.lastTapRef (comp w) = Some l /\ l <= t).

(** A service that answers every request. *)
Definition all_up : Network :=
  {| analyze_survey := fun _ => Resolved (mkSubScore 35 "survey");
     analyze_taps := fun _ => Resolved (mkSubScore 50 "taps");
     analyze_spiral := fun _ => Resolved (mkSubScore 65 "spiral");
     aggregate := fun _ _ s =>
       Resolved (mkSession "s-9" "2024-06-01T12:00:00" 35 50 s 50 "Moderate" "") |}.

(** A tap reply that arrives late. A first tap test is submitted and, its
    request still pending, the user leaves through Home, starts again and
    completes the whole run, then clicks Restart. The pending reply arrives
    now and calls [onComplete]. *)
Definition late_tap_reply_run : App.State :=
  fold_left (fun st op => App.run op st)
    [ App.Start; App.SurveyComplete (mkSubScore 35 "survey");
      App.GoHome;
      App.Start; App.SurveyComplete (mkSubScore 35 "survey");
      App.TapsComplete (mkSubScore 50 "taps");
      App.SpiralComplete (mkSubScore 65 "spiral");
      App.FinalResults (mkSession "s-1" "2024-03-01T09:00:00" 35 50 65 50
                          "Moderate" "See a doctor");
      App.Restart;
      App.TapsComplete (mkSubScore 45 "first tap test") ]
    App.initial.

(** The spiral step this reply brings up, with one stroke drawn. *)
Definition late_tap_reply : World SpiralCanvasStep.State :=
  SpiralCanvasStep.run all_up
    [ SpiralCanvasStep.BeginStroke (300 # 1, 300 # 1)%Q;
      SpiralCanvasStep.ExtendStroke (320 # 1, 310 # 1)%Q;
      SpiralCanvasStep.EndStroke ]
    (SpiralCanvasStep.mounted late_tap_reply_run).

(** The two reads of one load. *)
Definition one_load : list Request := [GetSessions 100; GetStatistics].

(** A session whose four scores are within the 0-100 contract. *)
Definition scores_in_range (s : Session) : Prop :=
  (0 <= survey_score s <= 100)%Q /\ (0 <= tap_score s <= 100)%Q
  /\ (0 <= spiral_score s <= 100)%Q /\ (0 <= overall_risk s <= 100)%Q.

(** A chart point whose four values fit the [0, 100] domain of the axes. *)
Definition point_in_domain (p : ResultsHistory.TrendPoint) : Prop :=
  0 <= ResultsHistory.risk p <= 100 /\ 0 <= ResultsHistory.survey p <= 100
  /\ 0 <= ResultsHistory.tap p <= 100 /\ 0 <= ResultsHistory.spiral p <= 100.

(* ================================================================== *)
(** * Properties of the orchestrator *)
(* ================================================================== *)

Section Orchestrator.

Import App.

Lemma forward_intro a b n :
  position a = Some n -> position b = Some (S n) -> forward a b.
Proof. intros Ha Hb. exists n. split; assumption. Qed.

Lemma backward_intro a b n m :
  position a = Some n -> position b = Some m -> (m < n)%nat -> backward a b.
Proof. intros Ha Hb Hlt. exists n, m. repeat split; assumption. Qed.

Lemma forward_not_backward a b : forward a b -> ~ backward a b.
Proof.
  intros [n [Ha Hb]] [n' [m [Ha' [Hb' Hlt]]]].
  rewrite Ha in Ha'. rewrite Hb in Hb'.
  injection Ha' as <-. injection Hb' as <-. lia.
Qed.

(** Every value of [currentStep] is reached by some sequence of offered
    operations. *)
Lemma every_step_reachable (s : Step) :
  exists st, reachable st /\ currentStep st = s.
Proof.
  set (r := mkSubScore 0 "").
  set (f := mkSession "" "" 0 0 0 0 "Low" "").
  pose proof reach_initial as H0.
  pose proof (reach_step _ Start H0 eq_refl) as H1.
  pose proof (reach_step _ (SurveyComplete r) H1 eq_refl) as H2.
  pose proof (reach_step _ (TapsComplete r) H2 eq_refl) as H3.
  pose proof (reach_step _ (SpiralComplete r) H3 eq_refl) as H4.
  pose proof (reach_step _ (FinalResults f) H4 eq_refl) as H5.
  pose proof (reach_step _ GoToHistory H5 eq_refl) as H6.
  destruct s;
    first [ exists initial; split; [exact H0 | reflexivity]
          | eexists; split; [exact H1 | reflexivity]
          | eexists; split; [exact H2 | reflexivity]
          | eexists; split; [exact H3 | reflexivity]
          | eexists; split; [exact H4 | reflexivity]
          | eexists; split; [exact H5 | reflexivity]
          | eexists; split; [exact H6 | reflexivity] ].
Qed.

End Orchestrator.

(** C4, counterexample. With the survey result [r] stored, the navbar's Home
    button takes the wizard from the tap step back to Landing: it is not
    Restart and the survey slot is still filled. While Aggregating, the
    fallback landing page offers Start, which leads back to Survey. And a
    survey reply that arrives after the user has left the survey step
    through Home takes the wizard from Landing straight to the tap step.
    Hence the statement as worded fails. *)
Lemma goHome_moves_backward_without_reset :
  let r := mkSubScore 42 "" in
  let st := App.run (App.SurveyComplete r) (App.run App.Start App.initial) in
  let st' := App.run App.GoHome st in
  let agg := App.run (App.SpiralComplete r) (App.run (App.TapsComplete r) st) in
  let left := App.run App.GoHome (App.run App.Start App.initial) in
  (App.reachable st /\ App.offered st App.GoHome = true
   /\ App.currentStep st = App.Taps /\ App.currentStep st' = App.Landing
   /\ App.backward (App.currentStep st) (App.currentStep st')
   /\ App.survey (App.testResults st') = Some r)
  /\ (App.reachable agg /\ App.offered agg App.Start = true
      /\ App.currentStep agg = App.Loading
      /\ App.currentStep (App.run App.Start agg) = App.Survey)
  /\ (App.reachable left /\ App.currentStep left = App.Landing
      /\ App.currentStep (App.run (App.SurveyComplete r) left) = App.Taps)
  /\ ~ only_restart_moves_backward.
Proof.
  cbv zeta.
  set (r := mkSubScore 42 "").
  pose proof App.reach_initial as H0.
  pose proof (App.reach_step _ App.Start H0 eq_refl) as H1.
  pose proof (App.reach_step _ (App.SurveyComplete r) H1 eq_refl) as H2.
  pose proof (App.reach_step _ (App.TapsComplete r) H2 eq_refl) as H3.
  pose proof (App.reach_step _ (App.SpiralComplete r) H3 eq_refl) as H4.
  pose proof (App.reach_step _ App.GoHome H1 eq_refl) as H5.
  split; [| split; [| split]].
  - repeat split; try reflexivity; try exact H2.
    apply (backward_intro _ _ 2%nat 0%nat); [reflexivity | reflexivity | lia].
  - repeat split; try reflexivity. exact H4.
  - repeat split; try reflexivity. exact H5.
  - intros claim.
    destruct (claim _ App.GoHome H2 eq_refl) as [Hf | [[Hop _] | [Hh | Hh]]].
    + destruct Hf as [n [Ha Hb]]. simpl in Ha, Hb. congruence.
    + discriminate Hop.
    + discriminate Hh.
    + discriminate Hh.
Qed.

(** C4, amended. No handler looks at the step shown: each sets
    [currentStep] to a fixed target. Start and the four completion
    callbacks move to the successor, in
    Landing → Survey → TapTest → Spiral → Aggregating → Results,
    of the step they are wired to, so the transition is a forward one
    exactly when the handler runs while that step is shown; otherwise
    (Start on the fallback landing page shown while Aggregating, a
    completion whose reply arrives after the user has left the step) the
    wizard jumps to the same target from wherever it is.
    The other operations are the move to the history page, results
    untouched; Restart, which returns to Landing with all four slots empty;
    and the navbar's Home, which returns to Landing and leaves the four
    slots as they were. Home is on every page but Landing; Start is on the
    landing page, which is also what is rendered while Aggregating. *)
Theorem wizard_operations_classified (st : App.State) (op : App.Op) :
  let st' := App.run op st in
  ((exists s,
      App.own_step op = Some s
      /\ App.forward s (App.currentStep st')
      /\ (App.forward (App.currentStep st) (App.currentStep st')
          <-> App.currentStep st = s))
   \/ (op = App.GoToHistory /\ App.currentStep st' = App.History
       /\ App.testResults st' = App.testResults st)
   \/ (op = App.Restart /\ st' = App.initial)
   \/ (op = App.GoHome /\ App.currentStep st' = App.Landing
       /\ App.testResults st' = App.testResults st))
  /\ (App.offered st App.GoHome = true <-> App.currentStep st <> App.Landing)
  /\ (App.offered st App.Start = true
      <-> App.currentStep st = App.Landing \/ App.currentStep st = App.Loading).
Proof.
  assert (Hinj : forall a b c, App.forward a c -> App.forward b c -> a = b).
  { intros a b c [n [Ha Hc]] [m [Hb Hc']].
    rewrite Hc in Hc'. injection Hc' as <-.
    destruct a, b; cbn in Ha, Hb; congruence. }
  destruct st as [step results]. cbv zeta.
  split; [| split].
  - destruct op; cbn [App.run App.own_step];
      first
        [ left; eexists; split; [reflexivity |];
          match goal with
          | |- App.forward ?s ?t /\ _ =>
              assert (Hfw : App.forward s t)
                by (eapply forward_intro; reflexivity)
          end;
          split; [exact Hfw |];
          split; [intros H; exact (Hinj _ _ _ H Hfw)
                 | cbn; intros ->; exact Hfw]
        | right; left; repeat split; reflexivity
        | right; right; left; repeat split; reflexivity
        | right; right; right; repeat split; reflexivity ].
  - destruct step; cbn; split;
      first [ intros H; discriminate H
            | intros _ E; discriminate E
            | intros _; reflexivity
            | intros H; exfalso; apply H; reflexivity ].
  - destruct step; cbn; split;
      first [ intros H; discriminate H
            | intros _; left; reflexivity
            | intros _; right; reflexivity
            | intros _; reflexivity
            | intros [H | H]; discriminate H ].
Qed.

(** C10. Start Assessment only changes [currentStep]; among all operations
    only Restart can empty a slot; a return to Landing through the navbar
    followed by Start keeps every stored result, and each completion handler
    then overwrites its own slot and no other. *)
Theorem start_keeps_previous_results (st : App.State) :
  (App.testResults (App.handleStartAssessment st) = App.testResults st
   /\ App.currentStep (App.handleStartAssessment st) = App.Survey)
  /\ (forall op,
        op = App.Restart
        \/ (App.kept (App.survey (App.testResults st))
                 (App.survey (App.testResults (App.run op st)))
            /\ App.kept (App.taps (App.testResults st))
                    (App.taps (App.testResults (App.run op st)))
            /\ App.kept (App.spiral (App.testResults st))
                    (App.spiral (App.testResults (App.run op st)))
            /\ App.kept (App.final (App.testResults st))
                    (App.final (App.testResults (App.run op st)))))
  /\ App.handleRestart st = App.initial
  /\ App.testResults (App.handleStartAssessment (App.goHome st))
     = App.testResults st
  /\ (forall r,
        App.testResults (App.handleSurveyComplete r st)
        = App.mkResults (Some r) (App.taps (App.testResults st))
            (App.spiral (App.testResults st)) (App.final (App.testResults st)))
  /\ (forall r,
        App.testResults (App.handleTapsComplete r st)
        = App.mkResults (App.survey (App.testResults st)) (Some r)
            (App.spiral (App.testResults st)) (App.final (App.testResults st)))
  /\ (forall r,
        App.testResults (App.handleSpiralComplete r st)
        = App.mkResults (App.survey (App.testResults st))
            (App.taps (App.testResults st)) (Some r)
            (App.final (App.testResults st))).
Proof.
  destruct st as [step [sv tp sp fn]].
  repeat split.
  intros op. destruct op; cbn;
    first [ left; reflexivity
          | right; repeat split;
            first [ left; reflexivity | right; eexists; reflexivity ] ].
Qed.

(** The run C10 describes: two results are stored, the user leaves
    through Home and starts again; the next survey sees them still there. *)
Example results_carried_into_next_run :
  let r1 := mkSubScore 10 "first survey" in
  let r2 := mkSubScore 20 "first taps" in
  let st := fold_left (fun st op => App.run op st)
              [App.Start; App.SurveyComplete r1; App.TapsComplete r2;
               App.GoHome; App.Start] App.initial in
  App.currentStep st = App.Survey
  /\ App.testResults st = App.mkResults (Some r1) (Some r2) None None.
Proof. split; reflexivity. Qed.

(* ================================================================== *)
(** * Properties of the survey step *)
(* ================================================================== *)

Lemma isComplete_true (a : gmap string Z) :
  (forall q, In q question_ids -> is_Some (a !! q)) ->
  SurveyStep.isComplete a = true.
Proof.
  intros H. unfold SurveyStep.isComplete.
  apply forallb_forall. intros q Hq.
  apply bool_decide_eq_true. apply H.
  unfold question_ids. apply in_map. exact Hq.
Qed.

Lemma isComplete_false (a : gmap string Z) (q : string) :
  In q question_ids -> a !! q = None ->
  SurveyStep.isComplete a = false.
Proof.
  intros Hq Hnone.
  destruct (SurveyStep.isComplete a) eqn:E; [| reflexivity].
  unfold SurveyStep.isComplete in E.
  rewrite forallb_forall in E.
  unfold question_ids in Hq. apply in_map_iff in Hq.
  destruct Hq as [x [<- Hx]].
  specialize (E x Hx). apply bool_decide_eq_true in E.
  rewrite Hnone in E. destruct E as [v Hv]. discriminate Hv.
Qed.

(** The option buttons offer the severities 0..4 and nothing else. *)
Lemma options_in_range :
  map SurveyStep.value SurveyStep.options = [0; 1; 2; 3; 4].
Proof. reflexivity. Qed.

(** No question id is shadowed by a member of [Object.prototype]. *)
Lemma question_ids_are_own_keys :
  forallb (fun q => negb (existsb (String.eqb q) JS.Object_prototype))
    question_ids = true.
Proof. reflexivity. Qed.

(** [handleAnswerChange] overwrites the answer of one question and leaves
    the others alone. *)
Lemma handleAnswerChange_records (q : string) (v : Z) (s : SurveyStep.State) :
  SurveyStep.answers (SurveyStep.handleAnswerChange q v s) !! q = Some v
  /\ forall q', q' <> q ->
       SurveyStep.answers (SurveyStep.handleAnswerChange q v s) !! q'
       = SurveyStep.answers s !! q'.
Proof.
  split.
  - cbn. apply lookup_insert_eq.
  - intros q' Hne. cbn. apply lookup_insert_ne. congruence.
Qed.

(** C7. With all five ids answered by values in 0..4 the validation passes:
    exactly one request, carrying the answers, is sent, and the outcome is
    the one of the service (the orchestrator advances or the service's
    error is shown). With some id unanswered nothing happens but the error
    message being set: no request, no timeout, no change of the answers,
    of [loading] or of the orchestrator. *)
Theorem survey_submit_validation (net : Network) (w : World SurveyStep.State) :
  let a := SurveyStep.answers (comp w) in
  let w' := SurveyStep.handleSubmit net w in
  ((forall q, In q question_ids -> exists v, a !! q = Some v /\ 0 <= v <= 4) ->
   sent w' = sent w ++ [PostAnalyzeSurvey a]
   /\ timers w' = timers w
   /\ SurveyStep.answers (comp w') = a
   /\ SurveyStep.loading (comp w') = false
   /\ match analyze_survey net a with
      | Resolved data =>
          app w' = App.handleSurveyComplete data (app w)
          /\ SurveyStep.error (comp w') = None
      | Rejected err =>
          app w' = app w
          /\ SurveyStep.error (comp w')
             = Some (detail_or err "Failed to submit survey. Please try again.")
      end)
  /\ ((exists q, In q question_ids /\ a !! q = None) ->
      w' = update (SurveyStep.setError (Some SurveyStep.please_answer)) w
      /\ sent w' = sent w /\ app w' = app w).
Proof.
  cbv zeta. split.
  - intros Hall.
    assert (Hc : SurveyStep.isComplete (SurveyStep.answers (comp w)) = true).
    { apply isComplete_true. intros q Hq.
      destruct (Hall q Hq) as [v [Hv _]]. exists v. exact Hv. }
    unfold SurveyStep.handleSubmit. rewrite Hc. cbn.
    destruct (analyze_survey net (SurveyStep.answers (comp w)));
      cbn; repeat split; reflexivity.
  - intros [q [Hq Hnone]].
    pose proof (isComplete_false _ q Hq Hnone) as Hc.
    unfold SurveyStep.handleSubmit. rewrite Hc. cbn.
    repeat split; reflexivity.
Qed.

Lemma all_sometimes_complete :
  forall q, In q question_ids ->
    exists v, all_sometimes !! q = Some v /\ 0 <= v <= 4.
Proof.
  intros q Hq. cbn in Hq.
  destruct Hq as [<- | [<- | [<- | [<- | [<- | []]]]]];
    eexists; (split; [vm_compute; reflexivity | lia]).
Qed.

(** Both cases at work: the filled-in questionnaire is posted, the empty
    one is not. *)
Lemma survey_submit_validation_examples :
  sent (SurveyStep.handleSubmit offline (survey_world all_sometimes))
  = [PostAnalyzeSurvey all_sometimes]
  /\ sent (SurveyStep.handleSubmit offline (survey_world ∅)) = [].
Proof.
  split.
  - exact (proj1 (proj1 (survey_submit_validation offline (survey_world all_sometimes))
                    all_sometimes_complete)).
  - exact (proj1 (proj2 (proj2 (survey_submit_validation offline (survey_world ∅))
                    (ex_intro _ "tremor" (conj (or_introl eq_refl) eq_refl))))).
Defined.

(* ================================================================== *)
(** * Properties of the tap test *)
(* ================================================================== *)

Section TapTest.

Import TapTestStep.

Variable net : Network.

(** The effect only touches the armed timer. *)
Lemma useEffect_frame (before : State) (w : World State) :
  let w' := useEffect before w in
  sent w' = sent w /\ timers w' = timers w /\ app w' = app w
  /\ tapTimestamps (comp w') = tapTimestamps (comp w)
  /\ tapCount (comp w') = tapCount (comp w)
  /\ error (comp w') = error (comp w)
  /\ loading (comp w') = loading (comp w)
  /\ showInstructions (comp w') = showInstructions (comp w)
  /\ isActive (comp w') = isActive (comp w)
  /\ timeLeft (comp w') = timeLeft (comp w)
  /\ lastTapRef (comp w') = lastTapRef (comp w).
Proof.
  unfold useEffect.
  destruct (Bool.eqb _ _ && (_ =? _)); [cbn; tauto |].
  destruct (isActive (comp w) && (0 <? timeLeft (comp w))); cbn; tauto.
Qed.

Lemma run_snoc (evs : list Event) (ev : Event) (w : World State) :
  run net (evs ++ [ev]) w = step net ev (run net evs w).
Proof. unfold run. rewrite fold_left_app. reflexivity. Qed.

Lemma deltas_length (t0 : Z) (ts : list Z) :
  length (deltas t0 ts) = length ts.
Proof.
  revert t0. induction ts as [| t ts IH]; intros t0; cbn; [reflexivity |].
  rewrite IH. reflexivity.
Qed.

(** Dropping the first interval leaves the intervals between the taps. *)
Lemma slice_deltas (t0 t1 : Z) (ts : list Z) :
  JS.slice_from 1 (deltas t0 (t1 :: ts)) = deltas t1 ts.
Proof. reflexivity. Qed.

(** Entry [i] of [deltas t0 ts] is the distance between timestamp [i] and
    the one before it in [t0 :: ts]. *)
Lemma deltas_lookup (t0 : Z) (ts : list Z) (i : nat) (a b : Z) :
  (t0 :: ts) !! i = Some a -> ts !! i = Some b ->
  deltas t0 ts !! i = Some (b - a).
Proof.
  revert t0 i. induction ts as [| t ts IH]; intros t0 i Ha Hb.
  - destruct i; discriminate Hb.
  - destruct i as [| i]; cbn in *.
    + injection Ha as <-. injection Hb as <-. reflexivity.
    + apply IH; assumption.
Qed.

(** [handleTap] on a running test: the taps at [ts] append their deltas,
    the first one measured from the reference left by [handleStart]. *)
Lemma taps_record_deltas (ts : list Z) (t0 : Z) (w : World State) :
  isActive (comp w) = true -> timeLeft (comp w) <> 0 ->
  lastTapRef (comp w) = Some t0 ->
  let w' := fold_left (fun w t => handleTap t w) ts w in
  tapTimestamps (comp w') = tapTimestamps (comp w) ++ deltas t0 ts
  /\ tapCount (comp w') = tapCount (comp w) + Z.of_nat (length ts)
  /\ sent w' = sent w.
Proof.
  revert t0 w. induction ts as [| t ts IH]; intros t0 w Hact Htime Href.
  - cbn. rewrite app_nil_r. repeat split; lia.
  - cbn [fold_left deltas].
    assert (Hstep : handleTap t w
                    = w |> update (setTapCount (fun prev => prev + 1))
                        |> update (setTapTimestamps (fun prev => prev ++ [t - t0]))
                        |> update (setLastTapRef t)).
    { unfold handleTap. rewrite Hact. cbn [negb orb].
      destruct (timeLeft (comp w) =? 0) eqn:E; [lia |].
      rewrite Href. reflexivity. }
    rewrite Hstep.
    specialize (IH t (w |> update (setTapCount (fun prev => prev + 1))
                        |> update (setTapTimestamps (fun prev => prev ++ [t - t0]))
                        |> update (setLastTapRef t))).
    cbn in IH. destruct (IH Hact Htime eq_refl) as [H1 [H2 H3]].
    cbv zeta. rewrite H1, H2, H3. cbn [length].
    rewrite <- app_assoc. repeat split; try reflexivity. lia.
Qed.

Lemma step_interval_lags (ev : Event) (w : World State) :
  interval_lags w -> interval_lags (step net ev w).
Proof.
  destruct w as [[act tl cnt stamps ld err instr st0 lt iv] a snt tms].
  unfold interval_lags. cbn [comp interval isActive tapTimestamps].
  intros Hinv. destruct ev as [now1 now2 | now | |]; cbn [step comp].
  - destruct act; cbn; [exact Hinv |].
    destruct ld; cbn; [exact Hinv |].
    destruct err; cbn; [exact Hinv |].
    unfold useEffect; cbn. split; [reflexivity | exists []; reflexivity].
  - destruct act; cbn; [| exact Hinv].
    unfold handleTap; cbn.
    destruct (tl =? 0) eqn:E; cbn.
    + unfold useEffect; cbn. rewrite Z.eqb_refl. cbn. exact Hinv.
    + unfold useEffect; cbn. rewrite Z.eqb_refl. cbn.
      destruct iv as [seen |]; [| exact I].
      destruct Hinv as [Hact [later Hlater]]. split; [exact Hact |].
      exists (later ++ [since lt now]). rewrite Hlater.
      rewrite app_assoc. reflexivity.
  - cbn [interval]. destruct iv as [seen |]; [| exact I].
    destruct Hinv as [Hact _]. subst act.
    unfold onInterval; cbn [comp timeLeft].
    destruct (tl <=? 1) eqn:E.
    + unfold handleTestComplete; cbn.
      destruct (Z.of_nat (length seen) <? 3); cbn.
      * unfold useEffect; cbn. exact I.
      * destruct (analyze_taps net (JS.slice_from 1 seen));
          unfold useEffect; cbn; exact I.
    + unfold useEffect; cbn.
      assert (Hne : (tl =? tl - 1) = false) by lia. rewrite Hne.
      destruct (0 <? tl - 1); cbn; [| exact I].
      split; [reflexivity | exists []; rewrite app_nil_r; reflexivity].
  - destruct tms as [| ms rest]; cbn; [exact Hinv |].
    unfold useEffect; cbn. rewrite Bool.eqb_reflx, Z.eqb_refl. cbn.
    exact Hinv.
Qed.

(** A tap leaves the armed timer, and the list it holds, as they are. *)
Lemma tap_keeps_armed_list (now : Z) (w : World State) :
  interval (comp (step net (ClickTap now) w)) = interval (comp w).
Proof.
  destruct w as [[act tl cnt stamps ld err instr st0 lt iv] a snt tms].
  cbn [step comp isActive]. destruct act; [| reflexivity].
  unfold handleTap; cbn. destruct (tl =? 0); cbn;
    unfold useEffect; cbn; rewrite Z.eqb_refl; reflexivity.
Qed.

(** A tick that does not end the test re-arms the timer with the list
    recorded so far. *)
Lemma tick_rearms_with_current_list (seen : list Z) (w : World State) :
  interval (comp w) = Some seen -> isActive (comp w) = true ->
  1 < timeLeft (comp w) ->
  let w' := step net Tick w in
  interval (comp w') = Some (tapTimestamps (comp w))
  /\ tapTimestamps (comp w') = tapTimestamps (comp w)
  /\ timeLeft (comp w') = timeLeft (comp w) - 1
  /\ sent w' = sent w.
Proof.
  destruct w as [[act tl cnt stamps ld err instr st0 lt iv] a snt tms].
  cbn [comp interval isActive timeLeft tapTimestamps].
  intros -> -> Htl. cbn [step comp interval].
  unfold onInterval; cbn [comp timeLeft].
  assert (E1 : (tl <=? 1) = false) by lia. rewrite E1.
  unfold useEffect; cbn.
  assert (E2 : (tl =? tl - 1) = false) by lia. rewrite E2.
  assert (E3 : (0 <? tl - 1) = true) by lia. rewrite E3. cbn.
  repeat split; reflexivity.
Qed.

Lemma taps_keep_armed_list (nows : list Z) (w : World State) :
  let w' := run net (map ClickTap nows) w in
  interval (comp w') = interval (comp w)
  /\ timeLeft (comp w') = timeLeft (comp w)
  /\ sent w' = sent w.
Proof.
  revert w. induction nows as [| now nows IH]; intros w.
  - repeat split; reflexivity.
  - cbn [map]. change (run net (ClickTap now :: map ClickTap nows) w)
      with (run net (map ClickTap nows) (step net (ClickTap now) w)).
    cbv zeta in *. destruct (IH (step net (ClickTap now) w)) as (H1 & H2 & H3).
    rewrite H1, H2, H3, tap_keeps_armed_list.
    destruct w as [[act tl cnt stamps ld err instr st0 lt iv] a snt tms].
    cbn [step comp isActive]. destruct act; [| repeat split; reflexivity].
    unfold handleTap; cbn. destruct (tl =? 0); cbn;
      unfold useEffect; cbn; rewrite Z.eqb_refl; repeat split; reflexivity.
Qed.

(** The tick that ends the test sends the list the timer holds, without
    its first element, when that list has at least three entries. *)
Lemma final_tick_sends (seen : list Z) (w : World State) :
  interval (comp w) = Some seen -> timeLeft (comp w) <= 1 ->
  (3 <= length seen)%nat ->
  sent (step net Tick w) = sent w ++ [PostAnalyzeTaps (JS.slice_from 1 seen)].
Proof.
  intros Hiv Htl Hlen. unfold step. rewrite Hiv.
  destruct (useEffect_frame (comp w) (onInterval net seen w)) as [Hs _].
  rewrite Hs. unfold onInterval.
  assert (E1 : (timeLeft (comp w) <=? 1) = true) by lia. rewrite E1.
  unfold handleTestComplete.
  assert (E2 : (Z.of_nat (length seen) <? 3) = false) by (apply Z.ltb_ge; lia).
  rewrite E2.
  destruct (analyze_taps net (JS.slice_from 1 seen)); reflexivity.
Qed.

(** What the service receives is the list as it stood at the last tick
    before the end: taps made between that tick and the expiry, however
    many, do not reach it. *)
Lemma taps_after_last_rearm_are_not_sent (seen : list Z) (nows : list Z)
    (w : World State) :
  interval (comp w) = Some seen -> isActive (comp w) = true ->
  timeLeft (comp w) = 2 ->
  (3 <= length (tapTimestamps (comp w)))%nat ->
  sent (run net ([Tick] ++ map ClickTap nows ++ [Tick]) w)
  = sent w ++ [PostAnalyzeTaps (JS.slice_from 1 (tapTimestamps (comp w)))].
Proof.
  intros Hiv Hact Htl Hlen.
  destruct (tick_rearms_with_current_list seen w Hiv Hact ltac:(lia))
    as (Hiv1 & _ & Htl1 & Hs1).
  set (w1 := step net Tick w) in *.
  destruct (taps_keep_armed_list nows w1) as (Hiv2 & Htl2 & Hs2).
  set (w2 := run net (map ClickTap nows) w1) in *.
  change (run net ([Tick] ++ map ClickTap nows ++ [Tick]) w)
    with (run net (map ClickTap nows ++ [Tick]) w1).
  rewrite run_snoc. fold w2.
  rewrite (final_tick_sends (tapTimestamps (comp w)) w2).
  - rewrite Hs2, Hs1. reflexivity.
  - rewrite Hiv2. exact Hiv1.
  - rewrite Htl2, Htl1, Htl. lia.
  - exact Hlen.
Qed.

Lemma run_interval_lags (evs : list Event) (a : App.State) :
  interval_lags (run net evs (mounted a)).
Proof.
  induction evs as [| ev evs IH] using rev_ind.
  - exact I.
  - rewrite run_snoc. apply step_interval_lags. exact IH.
Qed.

End TapTest.

(** C1, counterexample. Three taps give three raw intervals; two remain
    after the warm-up drop, fewer than 3, and yet the countdown's expiry
    submits them instead of failing. *)
Lemma three_taps_are_submitted :
  let w := TapTestStep.run offline three_taps
             (TapTestStep.mounted (App.handleSurveyComplete (mkSubScore 42 "")
                                     (App.handleStartAssessment App.initial))) in
  (TapTestStep.tapTimestamps (comp w) = [100; 200; 350]
   /\ (length (JS.slice_from 1 [100; 200; 350]) < 3)%nat
   /\ sent w = [PostAnalyzeTaps [200; 350]]
   /\ TapTestStep.error (comp w)
      = Some "Failed to analyze taps. Please try again.")
  /\ ~ fails_iff_under_three_after_drop.
Proof.
  cbv zeta. split.
  - repeat split; try reflexivity. cbn. lia.
  - intros claim.
    destruct (claim offline [100; 200; 350]
                (TapTestStep.mounted App.initial)) as [_ Hback].
    assert (Hlt : (length (JS.slice_from 1 [100; 200; 350]) < 3)%nat)
      by (cbn; lia).
    destruct (Hback Hlt) as [Hsent _].
    discriminate Hsent.
Qed.

(** C1, amended. When the countdown expires, the completion handler of the
    armed timer looks at the interval list [seen] it holds, before the
    warm-up drop. With fewer than 3 entries it fails: the "not enough taps"
    message is set, nothing is sent, the orchestrator is untouched, and one
    3000 ms timeout is scheduled whose callback restores the instructions
    and clears the message. With 3 entries or more it sends the list
    without its first element. *)
Theorem countdown_expiry_validation (net : Network)
    (w : World TapTestStep.State) (seen : list Z) :
  TapTestStep.interval (comp w) = Some seen ->
  TapTestStep.timeLeft (comp w) <= 1 ->
  let w' := TapTestStep.step net TapTestStep.Tick w in
  TapTestStep.isActive (comp w') = false
  /\ TapTestStep.timeLeft (comp w') = 0
  /\ ((length seen < 3)%nat ->
      sent w' = sent w
      /\ app w' = app w
      /\ TapTestStep.error (comp w') = Some TapTestStep.not_enough_taps
      /\ timers w' = timers w ++ [3000]
      /\ TapTestStep.showInstructions (comp (TapTestStep.onTimeout w')) = true
      /\ TapTestStep.error (comp (TapTestStep.onTimeout w')) = None)
  /\ ((3 <= length seen)%nat ->
      sent w' = sent w ++ [PostAnalyzeTaps (JS.slice_from 1 seen)]).
Proof.
  intros Hiv Htl. cbv zeta.
  unfold TapTestStep.step. rewrite Hiv.
  pose proof (useEffect_frame (comp w)
                (TapTestStep.onInterval net seen w)) as Hframe.
  cbv zeta in Hframe.
  destruct Hframe as (Hs & Ht & Ha & _ & _ & He & _ & _ & Hact & Htime & _).
  rewrite Hs, Ht, Ha, He, Hact, Htime.
  unfold TapTestStep.onInterval.
  assert (Hle : (TapTestStep.timeLeft (comp w) <=? 1) = true) by lia.
  rewrite Hle. unfold TapTestStep.handleTestComplete.
  destruct (Z.of_nat (length seen) <? 3) eqn:E.
  - cbn. split; [reflexivity | split; [reflexivity | split]].
    + intros _. repeat split; reflexivity.
    + intros Hge. lia.
  - destruct (analyze_taps net (JS.slice_from 1 seen));
      cbn; (split; [reflexivity | split; [reflexivity | split]]);
      first [ intros Hlt; lia | intros _; reflexivity ].
Qed.

(** With two taps on record the expiry fails and schedules the revert. *)
Lemma countdown_expiry_validation_two_taps :
  let w' := TapTestStep.step offline TapTestStep.Tick two_taps_nine_ticks in
  TapTestStep.interval (comp two_taps_nine_ticks) = Some [100; 200]
  /\ TapTestStep.timeLeft (comp two_taps_nine_ticks) = 1
  /\ sent w' = sent two_taps_nine_ticks
  /\ TapTestStep.error (comp w') = Some TapTestStep.not_enough_taps
  /\ timers w' = timers two_taps_nine_ticks ++ [3000].
Proof.
  cbv zeta.
  assert (Hiv : TapTestStep.interval (comp two_taps_nine_ticks) = Some [100; 200])
    by (vm_compute; reflexivity).
  assert (Htl : TapTestStep.timeLeft (comp two_taps_nine_ticks) = 1)
    by (vm_compute; reflexivity).
  assert (Hle : TapTestStep.timeLeft (comp two_taps_nine_ticks) <= 1)
    by (rewrite Htl; lia).
  pose proof (countdown_expiry_validation offline two_taps_nine_ticks
                [100; 200] Hiv Hle) as H.
  cbv zeta in H. destruct H as (_ & _ & Hfew & _).
  assert (Hshort : (length [100; 200] < 3)%nat) by (cbn; lia).
  destruct (Hfew Hshort) as (Hs & _ & He & Ht & _).
  repeat split; assumption.
Defined.

(** The handlers of the tap test taken one by one. After [handleStart] has stored [t0]
    in [lastTapRef], taps at [t1 :: ts] record the intervals
    [t1-t0, t2-t1, ...], and a completion handler that holds this list
    sends [t2-t1, ..., tn-t(n-1)]. *)
Lemma handlers_submit_inter_tap_deltas (net : Network)
    (now t0 t1 : Z) (ts : list Z) (w : World TapTestStep.State) :
  (2 <= length ts)%nat ->
  let started := TapTestStep.handleStart now t0 w in
  let tapped := fold_left (fun w t => TapTestStep.handleTap t w) (t1 :: ts) started in
  TapTestStep.tapTimestamps (comp tapped) = TapTestStep.deltas t0 (t1 :: ts)
  /\ sent (TapTestStep.handleTestComplete net
             (TapTestStep.tapTimestamps (comp tapped)) tapped)
     = sent w ++ [PostAnalyzeTaps (TapTestStep.deltas t1 ts)].
Proof.
  intros Hlen. cbv zeta.
  assert (Hrunning : TapTestStep.timeLeft (comp (TapTestStep.handleStart now t0 w)) <> 0)
    by discriminate.
  destruct (taps_record_deltas (t1 :: ts) t0 (TapTestStep.handleStart now t0 w)
              eq_refl Hrunning eq_refl) as (Hstamps & _ & Hsent).
  cbn [TapTestStep.handleStart comp update TapTestStep.tapTimestamps
       TapTestStep.setLastTapRef TapTestStep.setStartTimeRef
       TapTestStep.setTimeLeft TapTestStep.setTapTimestamps
       TapTestStep.setTapCount TapTestStep.setIsActive
       TapTestStep.setShowInstructions] in Hstamps.
  rewrite app_nil_l in Hstamps.
  set (tapped := fold_left _ _ _) in *. clearbody tapped.
  split; [exact Hstamps |].
  rewrite Hstamps. unfold TapTestStep.handleTestComplete.
  assert (Hlong : (Z.of_nat (length (TapTestStep.deltas t0 (t1 :: ts))) <? 3) = false).
  { rewrite deltas_length. cbn [length]. apply Z.ltb_ge. clear -Hlen. lia. }
  rewrite Hlong. rewrite slice_deltas.
  destruct (analyze_taps net (TapTestStep.deltas t1 ts)); cbn; rewrite Hsent; reflexivity.
Qed.

(** C2, the component as a whole. The timer that ends the test was armed by
    the render that followed the ninth tick, and the completion handler it
    calls holds the interval list of that render. The tap at 9500 ms is
    counted and recorded, but the list sent to the service stops at the
    fourth tap: [200, 350, 250] instead of [200, 350, 250, 8600]. *)
Theorem tap_in_last_second_is_not_submitted (net : Network) (a : App.State) :
  let w := TapTestStep.run net tap_in_last_second (TapTestStep.mounted a) in
  TapTestStep.tapCount (comp w) = 5
  /\ TapTestStep.tapTimestamps (comp w)
     = TapTestStep.deltas 0 [100; 300; 650; 900; 9500]
  /\ JS.slice_from 1 (TapTestStep.tapTimestamps (comp w)) = [200; 350; 250; 8600]
  /\ sent w = [PostAnalyzeTaps [200; 350; 250]].
Proof.
  cbv zeta.
  assert (Hsplit : tap_in_last_second
                   = removelast tap_in_last_second ++ [TapTestStep.Tick])
    by reflexivity.
  rewrite Hsplit, run_snoc.
  set (before := TapTestStep.run net _ (TapTestStep.mounted a)).
  assert (Hb : before
               = {| comp := TapTestStep.mkState true 1 5 [100; 200; 350; 250; 8600]
                              false None false (Some 0) (Some 9500)
                              (Some [100; 200; 350; 250]);
                    app := a; sent := []; timers := [] |})
    by (vm_compute; reflexivity).
  rewrite Hb. clear before Hb Hsplit.
  unfold TapTestStep.step, TapTestStep.onInterval,
    TapTestStep.handleTestComplete.
  cbn [comp TapTestStep.interval TapTestStep.timeLeft Z.leb Z.compare
       Pos.compare Pos.compare_cont length Z.of_nat Pos.of_succ_nat Pos.succ
       Z.ltb JS.slice_from drop].
  destruct (analyze_taps net [200; 350; 250]); repeat split; reflexivity.
Qed.

(* ================================================================== *)
(** * Properties of the spiral step *)
(* ================================================================== *)

Section Spiral.

Import SpiralCanvasStep.

Variable net : Network.

Lemma handleSubmit_hasDrawn (w : World State) :
  hasDrawn (comp (handleSubmit net w)) = hasDrawn (comp w).
Proof.
  unfold handleSubmit.
  destruct (hasDrawn (comp w)) eqn:E; cbn; [| exact E].
  destruct (analyze_spiral net (canvas (comp w))) as [d | e]; cbn;
    [| exact E].
  destruct (aggregate net _ _ (score d)); cbn; exact E.
Qed.

Lemma step_hasDrawn (op : Op) (w : World State) :
  hasDrawn (comp (step net op w))
  = match op with
    | BeginStroke _ => true
    | Clear => false
    | _ => hasDrawn (comp w)
    end.
Proof.
  destruct op; cbn; try reflexivity.
  - unfold draw. destruct (isDrawing (comp w)); reflexivity.
  - apply handleSubmit_hasDrawn.
Qed.

(** [hasDrawn] after a sequence of operations. *)
Lemma run_hasDrawn (ops : list Op) (w : World State) :
  hasDrawn (comp (run net ops w))
  = begun_since_clear ops || (no_clear ops && hasDrawn (comp w)).
Proof.
  revert w. induction ops as [| op ops IH]; intros w.
  - cbn. reflexivity.
  - change (run net (op :: ops) w) with (run net ops (step net op w)).
    rewrite IH, step_hasDrawn.
    destruct op; cbn [begun_since_clear no_clear forallb];
      fold (no_clear ops);
      destruct (begun_since_clear ops), (no_clear ops),
               (hasDrawn (comp w)); reflexivity.
Qed.

Lemma run_app (ops1 ops2 : list Op) (w : World State) :
  run net (ops1 ++ ops2) w = run net ops2 (run net ops1 w).
Proof. unfold run. apply fold_left_app. Qed.

(** A submission that passes the guard starts by posting the canvas. *)
Lemma handleSubmit_sends (w : World State) :
  hasDrawn (comp w) = true ->
  exists rest,
    sent (handleSubmit net w)
    = sent w ++ PostAnalyzeSpiral (canvas (comp w)) :: rest.
Proof.
  intros Hd. unfold handleSubmit. rewrite Hd. cbn.
  destruct (analyze_spiral net (canvas (comp w))) as [d | e]; cbn.
  - destruct (aggregate net _ _ (score d)); cbn;
      eexists; rewrite <- app_assoc; reflexivity.
  - exists []. reflexivity.
Qed.

End Spiral.

(** C8, counterexample. A mouse press and release without any movement
    paints nothing - the canvas is still the untouched guide - yet the
    submission goes out, carrying that canvas. Conversely, when the canvas
    is cleared while the button is held and the pointer then moves, a
    segment is painted and the submission is refused. Hence the statement as
    worded fails. *)
Lemma click_without_movement_is_submitted :
  let p := (300 # 1, 300 # 1)%Q in
  let q := (320 # 1, 310 # 1)%Q in
  let a := App.run (App.TapsComplete (mkSubScore 50 "taps"))
             (App.run (App.SurveyComplete (mkSubScore 35 "survey"))
                (App.run App.Start App.initial)) in
  let clicked :=
    SpiralCanvasStep.run offline
      [SpiralCanvasStep.BeginStroke p; SpiralCanvasStep.EndStroke]
      (SpiralCanvasStep.mounted a) in
  let cleared :=
    SpiralCanvasStep.run offline
      [SpiralCanvasStep.BeginStroke p; SpiralCanvasStep.Clear;
       SpiralCanvasStep.ExtendStroke q; SpiralCanvasStep.EndStroke]
      (SpiralCanvasStep.mounted a) in
  (SpiralCanvasStep.canvas (comp clicked) = [BeginPath; MoveTo p]
   /\ SpiralCanvasStep.inked (SpiralCanvasStep.canvas (comp clicked)) = false
   /\ sent (SpiralCanvasStep.step offline SpiralCanvasStep.Submit clicked)
      = [PostAnalyzeSpiral [BeginPath; MoveTo p]])
  /\ (SpiralCanvasStep.canvas (comp cleared) = [LineTo q; Stroke]
      /\ SpiralCanvasStep.inked (SpiralCanvasStep.canvas (comp cleared)) = true
      /\ sent (SpiralCanvasStep.step offline SpiralCanvasStep.Submit cleared) = []
      /\ SpiralCanvasStep.error
           (comp (SpiralCanvasStep.step offline SpiralCanvasStep.Submit cleared))
         = Some SpiralCanvasStep.please_draw)
  /\ ~ submit_refused_iff_nothing_drawn.
Proof.
  cbv zeta. split; [| split].
  - repeat split; reflexivity.
  - repeat split; reflexivity.
  - intros claim.
    specialize (claim offline
                  [SpiralCanvasStep.BeginStroke (300 # 1, 300 # 1)%Q;
                   SpiralCanvasStep.EndStroke]
                  App.initial).
    cbv zeta in claim. cbn in claim.
    destruct claim as [Hsent _]. discriminate Hsent.
Qed.

(** C8, amended. After any sequence of operations on a freshly mounted
    spiral step, submitting fails with the "please draw" message, sending
    nothing and leaving the orchestrator alone, when no stroke was begun
    since the last clear (or since the mount); otherwise the canvas content
    is posted. A stroke counts from the moment it is begun, whether or not
    the pointer has moved.
    In particular, once one stroke from [p] to [q] has been drawn after
    whatever came before, the submission posts the canvas, which ends with
    that stroke. *)
Theorem spiral_submit_validation (net : Network)
    (ops : list SpiralCanvasStep.Op) (a : App.State) (p q : Point) :
  let w := SpiralCanvasStep.run net ops (SpiralCanvasStep.mounted a) in
  let w' := SpiralCanvasStep.step net SpiralCanvasStep.Submit w in
  let drawn :=
    SpiralCanvasStep.run net
      (ops ++ [SpiralCanvasStep.BeginStroke p; SpiralCanvasStep.ExtendStroke q;
               SpiralCanvasStep.EndStroke])
      (SpiralCanvasStep.mounted a) in
  (if SpiralCanvasStep.begun_since_clear ops
   then exists rest,
          sent w' = sent w
                    ++ PostAnalyzeSpiral (SpiralCanvasStep.canvas (comp w)) :: rest
   else w' = update (SpiralCanvasStep.setError
                       (Some SpiralCanvasStep.please_draw)) w
        /\ sent w' = sent w /\ app w' = app w)
  /\ SpiralCanvasStep.canvas (comp drawn)
     = SpiralCanvasStep.canvas (comp w) ++ [BeginPath; MoveTo p; LineTo q; Stroke]
  /\ exists rest,
       sent (SpiralCanvasStep.step net SpiralCanvasStep.Submit drawn)
       = sent drawn
         ++ PostAnalyzeSpiral (SpiralCanvasStep.canvas (comp drawn)) :: rest.
Proof.
  cbv zeta.
  set (w := SpiralCanvasStep.run net ops (SpiralCanvasStep.mounted a)).
  assert (Hw : SpiralCanvasStep.hasDrawn (comp w)
               = SpiralCanvasStep.begun_since_clear ops).
  { unfold w. rewrite run_hasDrawn. cbn.
    rewrite andb_false_r, orb_false_r. reflexivity. }
  split; [| split].
  - destruct (SpiralCanvasStep.begun_since_clear ops).
    + apply handleSubmit_sends. exact Hw.
    + cbn. unfold SpiralCanvasStep.handleSubmit. rewrite Hw. cbn.
      repeat split; reflexivity.
  - rewrite run_app. fold w. cbn. rewrite <- app_assoc. reflexivity.
  - apply handleSubmit_sends. rewrite run_app. reflexivity.
Qed.

(** C3. The spiral step is submitted with the survey and tap results
    stored; the spiral analysis succeeds and the aggregation fails. Then the
    orchestrator is left in the ["loading"] step with the three sub-scores
    stored and the final slot as it was; the aggregate request was sent once
    and no timeout is scheduled, so nothing is retried. The failure reaches
    [handleSubmit]'s [catch], but [onComplete] has already moved the
    orchestrator on: under ["loading"] it renders the fallback landing
    page, the spiral step is unmounted, and the [setError] and [setLoading]
    of the [catch] reach nothing. The step's last state is the one set
    before the requests, without an error, and no error is shown. *)
Theorem aggregation_failure_error_is_dropped (net : Network)
    (w : World SpiralCanvasStep.State) (s t d : SubScoreResult)
    (e : AxiosError) :
  SpiralCanvasStep.hasDrawn (comp w) = true ->
  App.survey (App.testResults (app w)) = Some s ->
  App.taps (App.testResults (app w)) = Some t ->
  analyze_spiral net (SpiralCanvasStep.canvas (comp w)) = Resolved d ->
  aggregate net (Some (score s)) (Some (score t)) (score d) = Rejected e ->
  let w' := SpiralCanvasStep.handleSubmit net w in
  App.currentStep (app w') = App.Loading
  /\ App.testResults (app w')
     = App.mkResults (Some s) (Some t) (Some d)
         (App.final (App.testResults (app w)))
  /\ sent w'
     = sent w ++ [ PostAnalyzeSpiral (SpiralCanvasStep.canvas (comp w));
                   PostAggregate (Some (score s)) (Some (score t)) (score d) ]
  /\ timers w' = timers w
  /\ App.renderStep (app w') = App.LandingPage false
  /\ SpiralCanvasStep.rendered (app w') = false
  /\ comp w'
     = SpiralCanvasStep.setError None
         (SpiralCanvasStep.setLoading true (comp w))
  /\ SpiralCanvasStep.error (comp w') = None
  /\ SpiralCanvasStep.shownError w' = None.
Proof.
  intros Hd Hs Ht Hspiral Hagg. cbv zeta.
  unfold SpiralCanvasStep.handleSubmit.
  rewrite Hd, Hs, Ht. cbn. rewrite Hspiral. cbn. rewrite Hagg. cbn.
  rewrite Hs, Ht, <- app_assoc. repeat split; reflexivity.
Qed.

(** The wizard after a failed aggregation: still loading, three sub-scores
    stored, and the service's message "Aggregation failed" nowhere. *)
Lemma aggregation_failure_error_is_dropped_example :
  let w' := SpiralCanvasStep.handleSubmit aggregate_down spiral_drawn in
  App.currentStep (app w') = App.Loading
  /\ App.testResults (app w')
     = App.mkResults (Some (mkSubScore 35 "survey")) (Some (mkSubScore 50 "taps"))
         (Some (mkSubScore 65 "spiral")) None
  /\ SpiralCanvasStep.error (comp w') = None
  /\ SpiralCanvasStep.shownError w' = None.
Proof.
  cbv zeta.
  pose proof (aggregation_failure_error_is_dropped aggregate_down spiral_drawn
                (mkSubScore 35 "survey") (mkSubScore 50 "taps")
                (mkSubScore 65 "spiral") (mkAxiosError (Some "Aggregation failed"))
                eq_refl eq_refl eq_refl eq_refl eq_refl) as H.
  cbv zeta in H. destruct H as (H1 & H2 & _ & _ & _ & _ & _ & H3 & H4).
  repeat split; assumption.
Defined.

(* ================================================================== *)
(** * Properties of the risk-level display *)
(* ================================================================== *)

Lemma own_absent (props : list (string * string)) (key : string) :
  ~ In key (map fst props) -> JS.own props key = None.
Proof.
  induction props as [| [k v] props IH]; intros Hnot; cbn.
  - reflexivity.
  - destruct (String.eqb k key) eqn:E.
    + apply String.eqb_eq in E. exfalso. apply Hnot. left. exact E.
    + apply IH. intros Hin. apply Hnot. right. exact Hin.
Qed.

Lemma not_inherited (key : string) :
  ~ In key JS.Object_prototype ->
  existsb (String.eqb key) JS.Object_prototype = false.
Proof.
  intros Hnot.
  destruct (existsb (String.eqb key) JS.Object_prototype) eqn:E; [| reflexivity].
  apply existsb_exists in E. destruct E as [x [Hx Heq]].
  apply String.eqb_eq in Heq. subst x. contradiction.
Qed.


(** Each of the five categories has its colour in all three tables. *)
Lemma known_levels_have_their_colours :
  map ResultsHistory.getRiskBadgeColor risk_levels
  = map JS.Str ["#10b981"; "#84cc16"; "#f59e0b"; "#f97316"; "#ef4444"]
  /\ map FinalDashboard.getRiskColor risk_levels
     = map JS.Str ["green"; "lime"; "yellow"; "orange"; "red"]
  /\ map FinalDashboard.getRiskGradient risk_levels
     = map JS.Str [ "from-green-500 to-green-600"; "from-lime-500 to-green-600";
                    "from-yellow-500 to-orange-500"; "from-orange-500 to-red-500";
                    "from-red-500 to-red-600" ].
Proof. repeat split; reflexivity. Qed.




(* ================================================================== *)
(** * Properties of the history page *)
(* ================================================================== *)

Section History.

Import ResultsHistory.

Lemma reachable_one_load_at_a_time (s : State) :
  reachable s -> one_load_at_a_time s.
Proof.
  induction 1 as [| s ev Hreach IH Hoff].
  - left. cbn. repeat split. lia.
  - destruct ev as [| | tab | n reply]; cbn in Hoff.
    + discriminate Hoff.
    + unfold refreshOffered in Hoff.
      destruct IH as [[Hl _] | [Hl Hin]];
        [rewrite Hl in Hoff; discriminate Hoff |].
      left. cbn. rewrite Hin. repeat split. lia.
    + destruct IH as [(Hl & Hin & Hpos) | [Hl Hin]]; [left | right];
        cbn; repeat split; assumption.
    + apply bool_decide_eq_true in Hoff.
      destruct IH as [(Hl & Hin & Hpos) | [Hl Hin]].
      * rewrite Hin in Hoff. apply list_elem_of_singleton in Hoff. subst n.
        right. cbn. rewrite Hin.
        rewrite bool_decide_eq_true_2
          by (apply list_elem_of_singleton; reflexivity).
        destruct reply as [[l st] | e]; cbn;
          (split; [reflexivity |]);
          rewrite Hin; cbn; rewrite decide_False by (intros H; apply H; reflexivity);
          reflexivity.
      * rewrite Hin in Hoff. inversion Hoff.
Qed.


End History.


(** A page that is refreshed twice: the three loads are stored in the order
    0, 1, 2, and a click on Refresh while the second load is in flight is
    not delivered. *)
Example history_loads_of_two_refreshes :
  let run := ResultsHistory.drive
               [ ResultsHistory.Settle 0 (Resolved ([session_of_march], stats_of 1));
                 ResultsHistory.ClickRefresh;
                 ResultsHistory.ClickRefresh;
                 ResultsHistory.Settle 1
                   (Resolved ([session_of_april; session_of_march], stats_of 2));
                 ResultsHistory.ClickRefresh;
                 ResultsHistory.Settle 2
                   (Resolved ([session_of_april; session_of_march], stats_of 2)) ]
               (ResultsHistory.handle ResultsHistory.Mount ResultsHistory.initial)
               [] in
  snd run = [0; 1; 2]%nat
  /\ ResultsHistory.issued (fst run) = 3%nat
  /\ ResultsHistory.sessions (fst run) = [session_of_april; session_of_march].
Proof. cbv zeta. vm_compute. repeat split; reflexivity. Qed.

(* ================================================================== *)
(** * Properties of the chart projections *)
(* ================================================================== *)

Lemma slice_last_length {A} (n : nat) (l : list A) :
  length (JS.slice_last n l) = Nat.min n (length l).
Proof. unfold JS.slice_last. rewrite length_drop. lia. Qed.

Lemma slice_last_suffix {A} (n : nat) (l : list A) :
  JS.slice_last n l `suffix_of` l.
Proof.
  unfold JS.slice_last. exists (take (length l - n) l).
  symmetry. apply take_drop.
Qed.

Lemma slice_last_slice_last {A} (n m : nat) (l : list A) :
  (n <= m)%nat -> JS.slice_last n (JS.slice_last m l) = JS.slice_last n l.
Proof.
  intros Hle. unfold JS.slice_last.
  rewrite length_drop, drop_drop. f_equal. lia.
Qed.

(** The last [n] elements of the reversed, mapped list are the first [n]
    elements of the list, mapped, in reverse order. *)
Lemma slice_last_map_reverse {A B} (f : A -> B) (n : nat) (l : list A) :
  JS.slice_last n (map f (reverse l)) = map f (reverse (take n l)).
Proof.
  unfold JS.slice_last.
  rewrite length_map, length_reverse, reverse_take.
  apply skipn_map.
Qed.

(** C9. For every loaded session list (most recent first) the trend series
    has at most 30 points and the comparison series at most 10; they are the
    30, respectively 10, most recent sessions; both are suffixes of the
    projection of the whole list in chronological order; and both run from
    the oldest to the newest: point [i] comes from the session at position
    [length - 1 - i] of the loaded list. *)
Theorem chart_projections_are_recent_suffixes
    (toLocaleDateString : string -> string) (sessions : list Session) :
  let point := ResultsHistory.trendPoint toLocaleDateString in
  let trend := ResultsHistory.trendData toLocaleDateString sessions in
  let comparison := ResultsHistory.comparisonData toLocaleDateString sessions in
  ((length trend <= 30)%nat /\ (length comparison <= 10)%nat)
  /\ (trend = map point (reverse (take 30 sessions))
      /\ comparison = map point (reverse (take 10 sessions)))
  /\ (trend `suffix_of` map point (reverse sessions)
      /\ comparison `suffix_of` map point (reverse sessions)
      /\ comparison `suffix_of` trend)
  /\ (forall i, (i < length trend)%nat ->
        trend !! i = point <$> sessions !! (length trend - 1 - i)%nat)
  /\ (forall i, (i < length comparison)%nat ->
        comparison !! i = point <$> sessions !! (length comparison - 1 - i)%nat).
Proof.
  cbv zeta.
  unfold ResultsHistory.comparisonData, ResultsHistory.trendData.
  set (point := ResultsHistory.trendPoint toLocaleDateString).
  rewrite slice_last_slice_last by lia.
  rewrite !slice_last_map_reverse.
  assert (Hlookup : forall n i,
            (i < length (map point (reverse (take n sessions))))%nat ->
            map point (reverse (take n sessions)) !! i
            = point <$> sessions !! (length (map point (reverse (take n sessions))) - 1 - i)%nat).
  { intros n i Hi.
    rewrite length_map, length_reverse in *.
    change (map point) with (fmap (M := list) point).
    rewrite list_lookup_fmap. f_equal.
    rewrite reverse_lookup by exact Hi.
    pose proof (length_take sessions n) as Hk.
    rewrite lookup_take_lt by lia. f_equal. lia. }
  repeat split.
  - rewrite length_map, length_reverse, length_take. lia.
  - rewrite length_map, length_reverse, length_take. lia.
  - rewrite <- slice_last_map_reverse. apply slice_last_suffix.
  - rewrite <- slice_last_map_reverse. apply slice_last_suffix.
  - rewrite <- !slice_last_map_reverse.
    rewrite <- (slice_last_slice_last 10 30) by lia.
    apply slice_last_suffix.
  - apply Hlookup.
  - apply Hlookup.
Qed.

Example chart_projections_of_two_sessions :
  ResultsHistory.trendData (fun ts => ts) [session_of_april; session_of_march]
  = [ ResultsHistory.mkPoint "2024-03-01T09:00:00" 30 20 30 40 "2024-03-01T09:00:00";
      ResultsHistory.mkPoint "2024-04-01T09:00:00" 70 60 70 80 "2024-04-01T09:00:00" ].
Proof. reflexivity. Qed.

(* ================================================================== *)
(** * Further properties of the orchestrator *)
(* ================================================================== *)

(** Whatever step the wizard shows, the result whose arrival led to it is
    stored. The results of the steps before it need not be: a reply that
    arrives after Restart brings its step up with the other slots empty. *)
Lemma reachable_slots_filled (st : App.State) :
  App.reachable st ->
  match App.currentStep st with
  | App.Taps => is_Some (App.survey (App.testResults st))
  | App.Spiral => is_Some (App.taps (App.testResults st))
  | App.Loading => is_Some (App.spiral (App.testResults st))
  | App.Results => is_Some (App.final (App.testResults st))
  | _ => True
  end.
Proof.
  induction 1 as [| st op Hreach IH Hoff].
  - exact I.
  - destruct st as [step [sv tp sp fn]].
    destruct op; cbn; first [exact I | eexists; reflexivity].
Qed.

(** X1. Whenever the results page is shown, after any sequence of clicks
    and replies, early or late, the final record is there: the dashboard
    never falls into its "No results available" branch, and it shows the
    risk level of the stored record and the three cards of its breakdown. *)
Theorem dashboard_always_has_results (st : App.State) :
  App.reachable st ->
  App.currentStep st = App.Results ->
  exists final,
    App.final (App.testResults st) = Some final
    /\ FinalDashboard.riskBadge (App.testResults st)
       = Some (mkBadge (risk_level final)
                 (FinalDashboard.getRiskGradient (risk_level final)))
    /\ map FinalDashboard.card_number (FinalDashboard.testDetails final)
       = [ JS.Math_round (survey_score final); JS.Math_round (tap_score final);
           JS.Math_round (spiral_score final) ].
Proof.
  intros Hreach Hstep.
  pose proof (reachable_slots_filled st Hreach) as Hinv.
  rewrite Hstep in Hinv. destruct Hinv as [final Hf].
  exists final. unfold FinalDashboard.riskBadge. rewrite Hf.
  repeat split; assumption.
Qed.

Lemma completed_run_reachable : App.reachable completed_run.
Proof.
  unfold completed_run. cbn [fold_left].
  repeat (apply App.reach_step; [| reflexivity]).
  apply App.reach_initial.
Qed.

(** The dashboard of the completed run. *)
Lemma dashboard_always_has_results_completed_run :
  exists final,
    App.final (App.testResults completed_run) = Some final
    /\ FinalDashboard.riskBadge (App.testResults completed_run)
       = Some (mkBadge (risk_level final)
                 (FinalDashboard.getRiskGradient (risk_level final))).
Proof.
  destruct (dashboard_always_has_results completed_run
              completed_run_reachable eq_refl) as (final & H1 & H2 & _).
  exists final. split; assumption.
Defined.

Lemma late_tap_reply_run_reachable : App.reachable late_tap_reply_run.
Proof.
  unfold late_tap_reply_run. cbn [fold_left].
  repeat (apply App.reach_step; [| reflexivity]).
  apply App.reach_initial.
Qed.

(** X2. Whenever the spiral step is shown, a tap result is stored; so
    whatever the service answers, an aggregate request sent by the
    submission carries the score of the stored tap result and the score the
    spiral analysis has just returned. Its survey score is the one of the
    stored survey result, and is missing when none is stored. *)
Theorem aggregate_request_carries_tap_score (net : Network)
    (w : World SpiralCanvasStep.State) :
  App.reachable (app w) ->
  App.currentStep (app w) = App.Spiral ->
  exists t,
    App.taps (App.testResults (app w)) = Some t
    /\ forall sc tc sp,
         In (PostAggregate sc tc sp) (sent (SpiralCanvasStep.handleSubmit net w)) ->
         In (PostAggregate sc tc sp) (sent w)
         \/ (sc = score <$> App.survey (App.testResults (app w))
             /\ tc = Some (score t)
             /\ exists d, analyze_spiral net (SpiralCanvasStep.canvas (comp w))
                          = Resolved d /\ sp = score d).
Proof.
  intros Hreach Hstep.
  pose proof (reachable_slots_filled (app w) Hreach) as Hinv.
  rewrite Hstep in Hinv. destruct Hinv as [t Ht].
  exists t. split; [exact Ht |].
  intros sc tc sp. unfold SpiralCanvasStep.handleSubmit. rewrite Ht.
  set (sv := score <$> App.survey (App.testResults (app w))).
  destruct (SpiralCanvasStep.hasDrawn (comp w)); cbn; [| intros H; left; exact H].
  destruct (analyze_spiral net (SpiralCanvasStep.canvas (comp w))) as [d | e];
    cbn.
  - assert (Hin : In (PostAggregate sc tc sp)
                    ((sent w ++ [PostAnalyzeSpiral (SpiralCanvasStep.canvas (comp w))])
                     ++ [PostAggregate sv (Some (score t)) (score d)]) ->
                  In (PostAggregate sc tc sp) (sent w)
                  \/ (sc = sv /\ tc = Some (score t)
                      /\ exists d0, Resolved d = Resolved d0 /\ sp = score d0)).
    { intros H. apply in_app_or in H. destruct H as [H | [H | []]].
      - apply in_app_or in H. destruct H as [H | [H | []]];
          [left; exact H | discriminate H].
      - injection H as <- <- <-. right. repeat split. exists d. split; reflexivity. }
    destruct (aggregate net sv _ (score d)); cbn; exact Hin.
  - intros H. apply in_app_or in H. destruct H as [H | [H | []]];
      [left; exact H | discriminate H].
Qed.

(** The spiral step brought up by the late tap reply: the tap result is
    stored and the survey slot is empty. *)
Lemma aggregate_request_carries_tap_score_late_reply :
  (exists t, App.taps (App.testResults (app late_tap_reply)) = Some t)
  /\ App.survey (App.testResults (app late_tap_reply)) = None.
Proof.
  assert (Hreach : App.reachable (app late_tap_reply))
    by exact late_tap_reply_run_reachable.
  destruct (aggregate_request_carries_tap_score all_up late_tap_reply
              Hreach eq_refl) as (t & Ht & _).
  split; [exists t; exact Ht | reflexivity].
Defined.

(** Submitted, that step asks for the aggregation without a survey score. *)
Example late_tap_reply_aggregates_without_survey :
  sent (SpiralCanvasStep.handleSubmit all_up late_tap_reply)
  = [ PostAnalyzeSpiral (SpiralCanvasStep.canvas (comp late_tap_reply));
      PostAggregate None (Some 45%Q) 65%Q ].
Proof. reflexivity. Qed.

(* ================================================================== *)
(** * Further properties of the survey step *)
(* ================================================================== *)

Lemma isComplete_answered (a : gmap string Z) (q : string) :
  SurveyStep.isComplete a = true -> In q question_ids -> is_Some (a !! q).
Proof.
  intros Hc Hq. unfold SurveyStep.isComplete in Hc.
  rewrite forallb_forall in Hc.
  unfold question_ids in Hq. apply in_map_iff in Hq.
  destruct Hq as [x [<- Hx]].
  specialize (Hc x Hx). apply bool_decide_eq_true in Hc. exact Hc.
Qed.

(** The answers recorded by a sequence of calls of [handleAnswerChange]. *)
Lemma answered_after_changes (l : list (string * Z)) (s : SurveyStep.State)
    (q : string) :
  is_Some (SurveyStep.answers
             (fold_left (fun s c => SurveyStep.handleAnswerChange (fst c) (snd c) s) l s)
           !! q)
  <-> In q (map fst l) \/ is_Some (SurveyStep.answers s !! q).
Proof.
  revert s. induction l as [| [k v] l IH]; intros s; cbn [fold_left map fst snd].
  - cbn. tauto.
  - rewrite IH. cbn [SurveyStep.handleAnswerChange SurveyStep.setAnswers
                     SurveyStep.answers In].
    destruct (decide (k = q)) as [-> | Hne].
    + rewrite lookup_insert_eq. split; [intros _; left; left; reflexivity |].
      intros _. right. eexists; reflexivity.
    + rewrite lookup_insert_ne by exact Hne. tauto.
Qed.

(** X3. However the answers are recorded - in any order, with any number of
    changes of mind - once every question has been given an answer the
    survey is complete, and no later change makes it incomplete again. *)
Theorem answering_every_question_completes
    (l later : list (string * Z)) (s : SurveyStep.State) :
  (forall q, In q question_ids ->
     In q (map fst l) \/ is_Some (SurveyStep.answers s !! q)) ->
  let record := fold_left
                  (fun s c => SurveyStep.handleAnswerChange (fst c) (snd c) s) in
  SurveyStep.isComplete (SurveyStep.answers (record l s)) = true
  /\ SurveyStep.isComplete (SurveyStep.answers (record later (record l s))) = true.
Proof.
  intros Hall. cbv zeta. split.
  - apply isComplete_true. intros q Hq.
    apply answered_after_changes. apply Hall. exact Hq.
  - apply isComplete_true. intros q Hq.
    apply answered_after_changes. right.
    apply answered_after_changes. apply Hall. exact Hq.
Qed.

(** Five answers, one of them changed, then two more changes. *)
Lemma answering_every_question_completes_example :
  SurveyStep.isComplete
    (SurveyStep.answers
       (fold_left (fun s c => SurveyStep.handleAnswerChange (fst c) (snd c) s)
          [("walking", 3); ("tremor", 1); ("balance", 0); ("tremor", 2);
           ("rigidity", 4); ("bradykinesia", 2)]
          SurveyStep.initial)) = true.
Proof.
  refine (proj1 (answering_every_question_completes
                   [("walking", 3); ("tremor", 1); ("balance", 0); ("tremor", 2);
                    ("rigidity", 4); ("bradykinesia", 2)]
                   [("tremor", 0); ("walking", 4)]
                   SurveyStep.initial _)).
  intros q Hq. left. cbn in Hq |- *.
  destruct Hq as [<- | [<- | [<- | [<- | [<- | []]]]]]; tauto.
Defined.

Lemma survey_form_step (net : Network) (ev : SurveyForm.Event)
    (w : World SurveyStep.State) :
  answers_well_formed (SurveyStep.answers (comp w)) ->
  SurveyStep.loading (comp w) = false ->
  Forall complete_payload (sent w) ->
  let w' := SurveyForm.step net ev w in
  answers_well_formed (SurveyStep.answers (comp w'))
  /\ SurveyStep.loading (comp w') = false
  /\ Forall complete_payload (sent w').
Proof.
  intros Hwf Hload Hsent. cbv zeta.
  destruct ev as [qi oi |]; cbn [SurveyForm.step].
  - destruct (SurveyStep.questions !! qi) as [q |] eqn:Eq;
      [| split; [exact Hwf | split; [exact Hload | exact Hsent]]].
    destruct (SurveyStep.options !! oi) as [o |] eqn:Eo;
      [| split; [exact Hwf | split; [exact Hload | exact Hsent]]].
    cbn. split; [| split; [exact Hload | exact Hsent]].
    intros q0 v Hv.
    destruct (decide (SurveyStep.id q = q0)) as [<- | Hne].
    + rewrite lookup_insert_eq in Hv. injection Hv as <-. split.
      * unfold question_ids. apply in_map.
        apply list_elem_of_In. eapply list_elem_of_lookup_2. exact Eq.
      * do 5 (destruct oi as [| oi]; [injection Eo as <-; cbn; lia |]).
        discriminate Eo.
    + rewrite lookup_insert_ne in Hv by exact Hne. apply (Hwf _ _ Hv).
  - unfold Button.clickable, Button.render, SurveyForm.continueButton.
    cbn [Button.disabledAttr Button.disabled Button.loading].
    rewrite Hload, orb_false_r, negb_involutive.
    destruct (SurveyStep.isComplete (SurveyStep.answers (comp w))) eqn:Ec;
      [| split; [exact Hwf | split; [exact Hload | exact Hsent]]].
    unfold SurveyStep.handleSubmit. rewrite Ec. cbn [negb].
    assert (Hpay : complete_payload (PostAnalyzeSurvey (SurveyStep.answers (comp w)))).
    { exists (SurveyStep.answers (comp w)). split; [reflexivity | split].
      - intros q. split.
        + intros [v Hv]. apply (Hwf _ _ Hv).
        + apply isComplete_answered. exact Ec.
      - intros q v Hv. apply (Hwf _ _ Hv). }
    destruct (analyze_survey net (SurveyStep.answers (comp w))); cbn;
      (split; [exact Hwf | split; [reflexivity |]]);
      (apply Forall_app; split; [exact Hsent | constructor; [exact Hpay | constructor]]).
Qed.

(** X4. Driven through its buttons, the form only ever sends complete,
    in-range answers: every request it has sent carries exactly the five
    question ids, each with a severity from 0 to 4. The Continue button is
    disabled until the survey is complete, so [handleSubmit] is never
    entered with an answer missing. *)
Theorem survey_form_sends_complete_answers (net : Network)
    (evs : list SurveyForm.Event) (a : App.State) :
  let w := SurveyForm.run net evs (SurveyForm.mounted a) in
  Forall complete_payload (sent w)
  /\ answers_well_formed (SurveyStep.answers (comp w))
  /\ (negb (Button.clickable (SurveyForm.continueButton (comp w)))
      || SurveyStep.isComplete (SurveyStep.answers (comp w)) = true).
Proof.
  cbv zeta.
  assert (H : answers_well_formed
                (SurveyStep.answers (comp (SurveyForm.run net evs (SurveyForm.mounted a))))
              /\ SurveyStep.loading (comp (SurveyForm.run net evs (SurveyForm.mounted a)))
                 = false
              /\ Forall complete_payload
                   (sent (SurveyForm.run net evs (SurveyForm.mounted a)))).
  { induction evs as [| ev evs IH] using rev_ind.
    - split; [| split; [reflexivity | constructor]].
      intros q v Hv. cbn in Hv. rewrite lookup_empty in Hv. discriminate Hv.
    - unfold SurveyForm.run. rewrite fold_left_app. cbn [fold_left].
      destruct IH as (H1 & H2 & H3).
      apply survey_form_step; assumption. }
  destruct H as (H1 & H2 & H3).
  split; [exact H3 | split; [exact H1 |]].
  unfold Button.clickable, Button.render, SurveyForm.continueButton.
  cbn [Button.disabledAttr Button.disabled Button.loading].
  rewrite H2.
  destruct (SurveyStep.isComplete _); reflexivity.
Qed.

(* ================================================================== *)
(** * Further properties of the tap test *)
(* ================================================================== *)

Section TapTestInvariants.

Import TapTestStep.

Variable net : Network.

Lemma step_tap_consistent (ev : Event) (w : World State) :
  tap_consistent w -> tap_consistent (step net ev w).
Proof.
  destruct w as [[act tl cnt stamps ld err instr st0 lt iv] a snt tms].
  unfold tap_consistent.
  cbn [comp tapCount tapTimestamps timeLeft loading isActive interval error
       timers sent].
  intros (Hc & Htl & Hld & Hact & Hsent). subst ld.
  destruct ev as [now1 now2 | now | |]; cbn [step comp isActive loading error
                                               interval timers].
  - destruct act; cbn [negb andb].
    + split; [exact Hc | split; [exact Htl | split; [reflexivity |
        split; [exact Hact | exact Hsent]]]].
    + destruct Hact as [Hiv Herr].
      destruct err as [e |]; cbn.
      * split; [exact Hc | split; [exact Htl | split; [reflexivity |
          split; [split; [exact Hiv | exact Herr] | exact Hsent]]]].
      * destruct Herr as [[_ Htms] | [[x Hx] _]]; [| discriminate Hx].
        unfold useEffect; cbn.
        split; [reflexivity | split; [lia | split; [reflexivity |
          split; [| exact Hsent]]]].
        split; [lia | split; [eexists; reflexivity | split; [reflexivity | exact Htms]]].
  - destruct act; cbn [negb andb].
    + destruct Hact as (Hpos & Hiv & Herr & Htms).
      unfold handleTap; cbn.
      assert (E : (tl =? 0) = false) by lia. rewrite E. cbn.
      unfold useEffect; cbn. rewrite Z.eqb_refl. cbn.
      split; [rewrite length_app; cbn; lia | split; [exact Htl |
        split; [reflexivity | split; [| exact Hsent]]]].
      split; [exact Hpos | split; [exact Hiv | split; [exact Herr | exact Htms]]].
    + split; [exact Hc | split; [exact Htl | split; [reflexivity |
        split; [exact Hact | exact Hsent]]]].
  - destruct act.
    + destruct Hact as (Hpos & [seen Hiv] & Herr & Htms). subst iv err tms.
      unfold onInterval; cbn [comp timeLeft].
      destruct (tl <=? 1) eqn:E.
      * unfold handleTestComplete; cbn.
        destruct (Z.of_nat (length seen) <? 3) eqn:El; cbn.
        -- unfold useEffect; cbn.
           split; [exact Hc | split; [lia | split; [reflexivity |
             split; [| exact Hsent]]]].
           split; [reflexivity | right; split; [eexists; reflexivity | reflexivity]].
        -- assert (Hreq : Forall two_or_more
                            (snt ++ [PostAnalyzeTaps (JS.slice_from 1 seen)])).
           { apply Forall_app. split; [exact Hsent |].
             constructor; [| constructor].
             exists (JS.slice_from 1 seen). split; [reflexivity |].
             unfold JS.slice_from. rewrite length_drop. lia. }
           destruct (analyze_taps net (JS.slice_from 1 seen)); cbn;
             unfold useEffect; cbn;
             (split; [exact Hc | split; [lia | split; [reflexivity |
                split; [| exact Hreq]]]]).
           ++ split; [reflexivity | left; split; reflexivity].
           ++ split; [reflexivity | right; split; [eexists; reflexivity | reflexivity]].
      * unfold useEffect; cbn.
        assert (E1 : (tl =? tl - 1) = false) by lia. rewrite E1.
        assert (E2 : (0 <? tl - 1) = true) by lia. rewrite E2. cbn.
        split; [exact Hc | split; [lia | split; [reflexivity |
          split; [| exact Hsent]]]].
        split; [lia | split; [eexists; reflexivity | split; reflexivity]].
    + destruct Hact as [Hiv Herr]. subst iv. cbn.
      split; [exact Hc | split; [exact Htl | split; [reflexivity |
        split; [split; [reflexivity | exact Herr] | exact Hsent]]]].
  - destruct tms as [| ms rest].
    + split; [exact Hc | split; [exact Htl | split; [reflexivity |
        split; [exact Hact | exact Hsent]]]].
    + destruct act.
      * destruct Hact as (_ & _ & _ & Htms). discriminate Htms.
      * destruct Hact as [Hiv [[_ Htms] | [_ Htms]]]; [discriminate Htms |].
        injection Htms as -> ->. subst iv.
        unfold onTimeout, useEffect; cbn. rewrite Z.eqb_refl. cbn.
        split; [exact Hc | split; [exact Htl | split; [reflexivity |
          split; [| exact Hsent]]]].
        split; [reflexivity | left; split; reflexivity].
Qed.

Lemma run_tap_consistent (evs : list Event) (a : App.State) :
  tap_consistent (run net evs (mounted a)).
Proof.
  induction evs as [| ev evs IH] using rev_ind.
  - unfold tap_consistent. cbn.
    split; [reflexivity | split; [lia | split; [reflexivity |
      split; [split; [reflexivity | left; split; reflexivity] | constructor]]]].
  - rewrite run_snoc. apply step_tap_consistent. exact IH.
Qed.

(** Ticks and timeouts leave the recorded intervals and the reference of
    the last tap alone, and never start a test. *)
Lemma tick_timeout_frame (ev : Event) (w : World State) :
  match ev with Tick | Timeout => True | _ => False end ->
  let w' := step net ev w in
  tapTimestamps (comp w') = tapTimestamps (comp w)
  /\ lastTapRef (comp w') = lastTapRef (comp w)
  /\ (isActive (comp w') = true -> isActive (comp w) = true).
Proof.
  intros Hev. cbv zeta.
  destruct ev as [now1 now2 | now | |]; try contradiction; unfold step.
  - destruct (interval (comp w)) as [seen |]; [| repeat split; auto].
    destruct (useEffect_frame (comp w) (onInterval net seen w))
      as (_ & _ & _ & Hs & _ & _ & _ & _ & Ha & _ & Hl).
    rewrite Hs, Hl, Ha. unfold onInterval.
    destruct (timeLeft (comp w) <=? 1).
    + unfold handleTestComplete.
      destruct (Z.of_nat (length seen) <? 3); cbn;
        [| destruct (analyze_taps net (JS.slice_from 1 seen)); cbn];
        repeat split; intros H; discriminate H.
    + cbn. repeat split; auto.
  - destruct (timers w) as [| ms rest]; [repeat split; auto |].
    match goal with
    | |- context [useEffect ?s ?x] =>
        destruct (useEffect_frame s x)
          as (_ & _ & _ & Hs & _ & _ & _ & _ & Ha & _ & Hl)
    end.
    rewrite Hs, Hl, Ha. cbn. repeat split; auto.
Qed.

Lemma tap_ignored_when_idle (now : Z) (w : World State) :
  isActive (comp w) = false -> step net (ClickTap now) w = w.
Proof. intros H. unfold step. rewrite H. reflexivity. Qed.

Lemma taps_ignored_when_idle (nows : list Z) (w : World State) :
  isActive (comp w) = false -> run net (map ClickTap nows) w = w.
Proof.
  intros H. induction nows as [| now nows IH]; [reflexivity |].
  cbn [map]. change (run net (ClickTap now :: map ClickTap nows) w)
    with (run net (map ClickTap nows) (step net (ClickTap now) w)).
  rewrite tap_ignored_when_idle by exact H. exact IH.
Qed.

End TapTestInvariants.

(** X5. In every render of the tap test, whatever the user and the timers
    have done, the counter on screen is the number of recorded intervals,
    the countdown is between 0 and 10, it is at least 1 and no error is
    shown while the test is running, and no timer is armed while it is
    not. *)
Theorem tap_counter_and_countdown_consistent (net : Network)
    (evs : list TapTestStep.Event) (a : App.State) :
  let s := comp (TapTestStep.run net evs (TapTestStep.mounted a)) in
  TapTestStep.tapCount s = Z.of_nat (length (TapTestStep.tapTimestamps s))
  /\ 0 <= TapTestStep.timeLeft s <= 10
  /\ (if TapTestStep.isActive s
      then 1 <= TapTestStep.timeLeft s /\ TapTestStep.error s = None
      else TapTestStep.interval s = None).
Proof.
  cbv zeta.
  destruct (run_tap_consistent net evs a) as (Hc & Htl & _ & Hact & _).
  split; [exact Hc | split; [exact Htl |]].
  destruct (TapTestStep.isActive _).
  - destruct Hact as (H1 & _ & H3 & _). split; assumption.
  - destruct Hact as [H1 _]. exact H1.
Qed.

(** X6. Every request the tap test sends carries at least two intervals;
    and the test never sends more requests than "Start Test" was clicked:
    a started test ends in at most one submission, nothing is resent. *)
Theorem tap_requests_bounded (net : Network)
    (evs : list TapTestStep.Event) (a : App.State) :
  let w := TapTestStep.run net evs (TapTestStep.mounted a) in
  Forall two_or_more (sent w)
  /\ (length (sent w) + (if TapTestStep.isActive (comp w) then 1 else 0)
      <= TapTestView.starts evs)%nat.
Proof.
  cbv zeta. split.
  - destruct (run_tap_consistent net evs a) as (_ & _ & _ & _ & H). exact H.
  - induction evs as [| ev evs IH] using rev_ind; [cbn; lia |].
    rewrite run_snoc.
    pose proof (run_tap_consistent net evs a) as Hinv.
    set (w := TapTestStep.run net evs (TapTestStep.mounted a)) in *.
    assert (Hstarts : TapTestView.starts (evs ++ [ev])
                      = (TapTestView.starts evs
                         + match ev with TapTestStep.ClickStart _ _ => 1 | _ => 0 end)%nat).
    { clear. induction evs as [| e evs IH]; cbn.
      - destruct ev; reflexivity.
      - destruct e; cbn; rewrite IH; reflexivity. }
    rewrite Hstarts. clearbody w.
    destruct w as [[act tl cnt stamps ld err instr st0 lt iv] a0 snt tms].
    unfold tap_consistent in Hinv.
    cbn [comp TapTestStep.tapCount TapTestStep.tapTimestamps TapTestStep.timeLeft
         TapTestStep.loading TapTestStep.isActive TapTestStep.interval
         TapTestStep.error timers sent] in Hinv, IH.
    destruct Hinv as (_ & _ & Hld & Hact & _). subst ld.
    destruct ev as [now1 now2 | now | |];
      cbn [TapTestStep.step comp TapTestStep.isActive TapTestStep.loading
           TapTestStep.error TapTestStep.interval timers].
    + destruct act; cbn [negb andb]; [cbn; lia |].
      destruct err; cbn; [lia |].
      unfold TapTestStep.useEffect; cbn. lia.
    + destruct act; cbn; [| lia].
      unfold TapTestStep.handleTap; cbn.
      destruct (tl =? 0); cbn; unfold TapTestStep.useEffect; cbn;
        rewrite Z.eqb_refl; cbn; lia.
    + destruct act.
      * destruct Hact as (_ & [seen ->] & _).
        unfold TapTestStep.onInterval; cbn [comp TapTestStep.timeLeft].
        destruct (tl <=? 1) eqn:E.
        -- unfold TapTestStep.handleTestComplete; cbn.
           destruct (Z.of_nat (length seen) <? 3); cbn.
           ++ unfold TapTestStep.useEffect; cbn. cbn in IH. lia.
           ++ destruct (analyze_taps net (JS.slice_from 1 seen)); cbn;
                unfold TapTestStep.useEffect; cbn; rewrite length_app;
                cbn in IH |- *; lia.
        -- unfold TapTestStep.useEffect; cbn.
           assert (E1 : (tl =? tl - 1) = false) by lia. rewrite E1.
           destruct (0 <? tl - 1); cbn in IH |- *; lia.
      * destruct Hact as [-> _]. cbn in IH |- *. lia.
    + destruct tms as [| ms rest]; [cbn in IH |- *; lia |].
      unfold TapTestStep.onTimeout, TapTestStep.useEffect; cbn.
      rewrite Bool.eqb_reflx, Z.eqb_refl. cbn in IH |- *. lia.
Qed.

(** X7. The tap test is never stuck. Once the request of a finished test
    has been answered, every render is in exactly one of three situations:
    the test is running and a timer is armed; or an error message is shown,
    "Start Test" is hidden and exactly one timeout of 3000 ms is pending to
    clear it; or the step is idle with "Start Test" on offer and no timeout
    pending. *)
Theorem tap_test_never_stuck (net : Network)
    (evs : list TapTestStep.Event) (a : App.State) :
  let w := TapTestStep.run net evs (TapTestStep.mounted a) in
  let s := comp w in
  (TapTestStep.isActive s = true /\ is_Some (TapTestStep.interval s)
   /\ TapTestStep.error s = None /\ timers w = []
   /\ TapTestView.startOffered s = false)
  \/ (TapTestStep.isActive s = false /\ is_Some (TapTestStep.error s)
      /\ timers w = [3000] /\ TapTestView.startOffered s = false)
  \/ (TapTestStep.isActive s = false /\ TapTestStep.error s = None
      /\ timers w = [] /\ TapTestView.startOffered s = true).
Proof.
  cbv zeta.
  destruct (run_tap_consistent net evs a) as (_ & _ & Hld & Hact & _).
  unfold TapTestView.startOffered. rewrite Hld.
  destruct (TapTestStep.isActive _).
  - destruct Hact as (_ & Hiv & Herr & Htms). left.
    repeat split; assumption.
  - destruct Hact as [_ [[Herr Htms] | [Herr Htms]]].
    + right. right. rewrite Herr. repeat split; assumption.
    + right. left. destruct Herr as [e He]. rewrite He.
      repeat split; try assumption. eexists; reflexivity.
Qed.

Lemma total_snoc (l : list Z) (x : Z) :
  TapTestView.total (l ++ [x]) = TapTestView.total l + x.
Proof.
  unfold TapTestView.total. induction l as [| y l IH]; cbn; [lia |].
  rewrite IH. lia.
Qed.

(** One event that is not a click on "Start Test" keeps the last tap's
    reference [total] milliseconds after [t0]. *)
Lemma step_keeps_elapsed (net : Network) (t0 : Z) (ev : TapTestStep.Event)
    (w : World TapTestStep.State) :
  TapTestView.starts [ev] = 0%nat ->
  TapTestStep.lastTapRef (comp w)
  = Some (t0 + TapTestView.total (TapTestStep.tapTimestamps (comp w))) ->
  TapTestStep.lastTapRef (comp (TapTestStep.step net ev w))
  = Some (t0 + TapTestView.total
                 (TapTestStep.tapTimestamps (comp (TapTestStep.step net ev w)))).
Proof.
  intros Hev Hinv.
  destruct ev as [now1 now2 | now | |]; [discriminate Hev | | |].
  - unfold TapTestStep.step.
    destruct (TapTestStep.isActive (comp w)); [| exact Hinv].
    match goal with
    | |- context [TapTestStep.useEffect ?s ?x] =>
        destruct (useEffect_frame s x)
          as (_ & _ & _ & Hs & _ & _ & _ & _ & _ & _ & Hl)
    end.
    rewrite Hs, Hl. unfold TapTestStep.handleTap.
    destruct (negb _ || _); [exact Hinv |].
    cbn. rewrite total_snoc, Hinv. unfold TapTestStep.since. cbn.
    f_equal. lia.
  - destruct (tick_timeout_frame net TapTestStep.Tick w I) as (Hs & Hl & _).
    rewrite Hs, Hl. exact Hinv.
  - destruct (tick_timeout_frame net TapTestStep.Timeout w I) as (Hs & Hl & _).
    rewrite Hs, Hl. exact Hinv.
Qed.

(** X8. The recorded intervals add up to the time elapsed between the start
    of the test and its last tap: after "Start Test" was clicked with
    [Date.now()] reading [t0], and whatever taps, ticks and timeouts
    followed, the reference of the last tap is [t0] plus the sum of the
    intervals on record. *)
Theorem recorded_intervals_sum_to_elapsed_time (net : Network)
    (now1 t0 : Z) (evs : list TapTestStep.Event)
    (w : World TapTestStep.State) :
  TapTestView.startOffered (comp w) = true ->
  TapTestView.starts evs = 0%nat ->
  let w' := TapTestStep.run net (TapTestStep.ClickStart now1 t0 :: evs) w in
  TapTestStep.lastTapRef (comp w')
  = Some (t0 + TapTestView.total (TapTestStep.tapTimestamps (comp w'))).
Proof.
  intros Hoff Hevs. cbv zeta.
  change (TapTestStep.run net (TapTestStep.ClickStart now1 t0 :: evs) w)
    with (TapTestStep.run net evs
            (TapTestStep.step net (TapTestStep.ClickStart now1 t0) w)).
  assert (Hstart : TapTestStep.lastTapRef
                     (comp (TapTestStep.step net (TapTestStep.ClickStart now1 t0) w))
                   = Some (t0 + TapTestView.total
                                  (TapTestStep.tapTimestamps
                                     (comp (TapTestStep.step net
                                              (TapTestStep.ClickStart now1 t0) w))))).
  { unfold TapTestStep.step. unfold TapTestView.startOffered in Hoff.
    rewrite Hoff.
    match goal with
    | |- context [TapTestStep.useEffect ?s ?x] =>
        destruct (useEffect_frame s x)
          as (_ & _ & _ & Hs & _ & _ & _ & _ & _ & _ & Hl)
    end.
    rewrite Hs, Hl. cbn. f_equal. lia. }
  revert Hstart. generalize (TapTestStep.step net (TapTestStep.ClickStart now1 t0) w).
  clear Hoff w. induction evs as [| ev evs IH]; intros w Hw; [exact Hw |].
  change (TapTestStep.run net (ev :: evs) w)
    with (TapTestStep.run net evs (TapTestStep.step net ev w)).
  assert (Hev : TapTestView.starts [ev] = 0%nat /\ TapTestView.starts evs = 0%nat).
  { destruct ev; cbn in Hevs |- *; try discriminate Hevs; split; auto. }
  apply IH; [apply Hev |].
  apply step_keeps_elapsed; [apply Hev | exact Hw].
Qed.

(** Start at 1000, taps at 1100, 1300 and 1650, with ticks in between. *)
Lemma recorded_intervals_sum_to_elapsed_time_example :
  let w := TapTestStep.run offline
             [ TapTestStep.ClickStart 1000 1000; TapTestStep.ClickTap 1100;
               TapTestStep.ClickTap 1300; TapTestStep.Tick;
               TapTestStep.ClickTap 1650 ]
             (TapTestStep.mounted App.initial) in
  TapTestStep.lastTapRef (comp w)
  = Some (1000 + TapTestView.total (TapTestStep.tapTimestamps (comp w))).
Proof.
  exact (recorded_intervals_sum_to_elapsed_time offline 1000 1000
           [ TapTestStep.ClickTap 1100; TapTestStep.ClickTap 1300;
             TapTestStep.Tick; TapTestStep.ClickTap 1650 ]
           (TapTestStep.mounted App.initial) eq_refl eq_refl).
Defined.

Lemma clock_invariant_later (t t' : Z) (w : World TapTestStep.State) :
  t <= t' -> clock_invariant t w -> clock_invariant t' w.
Proof.
  intros Hle [H1 H2]. split; [exact H1 |].
  intros Ha. destruct (H2 Ha) as [l [Hl Hlt]]. exists l. split; [exact Hl | lia].
Qed.

Lemma run_clock_invariant (net : Network) (evs : list TapTestStep.Event)
    (t : Z) (w : World TapTestStep.State) :
  clock_invariant t w -> TapTestView.clock t evs ->
  Forall (fun i => 0 <= i)
    (TapTestStep.tapTimestamps (comp (TapTestStep.run net evs w))).
Proof.
  revert t w. induction evs as [| ev evs IH]; intros t w Hinv Hclock.
  - exact (proj1 Hinv).
  - change (TapTestStep.run net (ev :: evs) w)
      with (TapTestStep.run net evs (TapTestStep.step net ev w)).
    destruct ev as [now1 now2 | now | |]; cbn [TapTestView.clock] in Hclock.
    + destruct Hclock as (H1 & H2 & Hrest).
      apply (IH now2); [| exact Hrest].
      unfold TapTestStep.step.
      destruct (negb _ && negb _ && negb _);
        [| apply (clock_invariant_later t); [lia | exact Hinv]].
      unfold clock_invariant.
      match goal with
      | |- context [TapTestStep.useEffect ?s ?x] =>
          destruct (useEffect_frame s x)
            as (_ & _ & _ & Hs & _ & _ & _ & _ & _ & _ & Hl)
      end.
      rewrite Hs, Hl. cbn. split; [constructor |].
      intros _. exists now2. split; [reflexivity | lia].
    + destruct Hclock as (H1 & Hrest).
      apply (IH now); [| exact Hrest].
      unfold TapTestStep.step.
      destruct (TapTestStep.isActive (comp w)) eqn:Ea;
        [| apply (clock_invariant_later t); [lia | exact Hinv]].
      unfold clock_invariant.
      match goal with
      | |- context [TapTestStep.useEffect ?s ?x] =>
          destruct (useEffect_frame s x)
            as (_ & _ & _ & Hs & _ & _ & _ & _ & Ha & _ & Hl)
      end.
      rewrite Hs, Hl, Ha. unfold TapTestStep.handleTap. rewrite Ea. cbn [negb orb].
      destruct (TapTestStep.timeLeft (comp w) =? 0).
      * apply (clock_invariant_later t); [lia | exact Hinv].
      * destruct Hinv as [Hpos Hlast]. destruct (Hlast Ea) as [l [Hl' Hle]].
        cbn. rewrite Hl'. split.
        -- apply Forall_app. split; [exact Hpos |].
           constructor; [| constructor]. unfold TapTestStep.since. cbn. lia.
        -- intros _. exists now. split; [reflexivity | lia].
    + apply (IH t); [| exact Hclock].
      destruct (tick_timeout_frame net TapTestStep.Tick w I) as (Hs & Hl & Ha).
      destruct Hinv as [Hpos Hlast]. unfold clock_invariant.
      rewrite Hs, Hl. split; [exact Hpos |].
      intros H. apply Hlast. apply Ha. exact H.
    + apply (IH t); [| exact Hclock].
      destruct (tick_timeout_frame net TapTestStep.Timeout w I) as (Hs & Hl & Ha).
      destruct Hinv as [Hpos Hlast]. unfold clock_invariant.
      rewrite Hs, Hl. split; [exact Hpos |].
      intros H. apply Hlast. apply Ha. exact H.
Qed.

(** X9. As long as [Date.now()] never goes back from one reading to the
    next, no recorded interval is negative, whatever the order of clicks,
    taps, ticks and timeouts. *)
Theorem intervals_nonnegative_under_monotone_clock (net : Network)
    (evs : list TapTestStep.Event) (t : Z) (a : App.State) :
  TapTestView.clock t evs ->
  Forall (fun i => 0 <= i)
    (TapTestStep.tapTimestamps
       (comp (TapTestStep.run net evs (TapTestStep.mounted a)))).
Proof.
  intros Hclock. apply (run_clock_invariant net evs t); [| exact Hclock].
  split; [constructor |]. intros H. discriminate H.
Qed.

(** The clock of the sample test with a tap in the last second. *)
Lemma intervals_nonnegative_under_monotone_clock_example :
  Forall (fun i => 0 <= i)
    (TapTestStep.tapTimestamps
       (comp (TapTestStep.run offline tap_in_last_second
                (TapTestStep.mounted App.initial)))).
Proof.
  apply (intervals_nonnegative_under_monotone_clock offline
           tap_in_last_second 0 App.initial).
  cbn. repeat split; lia.
Defined.

(** X10. A tap after the countdown has expired is ignored: once the tick
    that ends the test has been handled, any number of taps leaves the
    whole state - counter, recorded intervals, requests - as it is. *)
Theorem taps_after_expiry_are_ignored (net : Network) (seen : list Z)
    (nows : list Z) (w : World TapTestStep.State) :
  TapTestStep.interval (comp w) = Some seen ->
  TapTestStep.timeLeft (comp w) <= 1 ->
  let w' := TapTestStep.step net TapTestStep.Tick w in
  TapTestStep.run net (map TapTestStep.ClickTap nows) w' = w'.
Proof.
  intros Hiv Htl. cbv zeta. apply taps_ignored_when_idle.
  unfold TapTestStep.step. rewrite Hiv.
  destruct (useEffect_frame (comp w) (TapTestStep.onInterval net seen w))
    as (_ & _ & _ & _ & _ & _ & _ & _ & Ha & _).
  rewrite Ha. unfold TapTestStep.onInterval.
  assert (E : (TapTestStep.timeLeft (comp w) <=? 1) = true) by lia.
  rewrite E. unfold TapTestStep.handleTestComplete.
  destruct (Z.of_nat (length seen) <? 3); cbn;
    [| destruct (analyze_taps net (JS.slice_from 1 seen))]; reflexivity.
Qed.

(** Two more taps after the sample test with two taps has expired. *)
Lemma taps_after_expiry_are_ignored_example :
  let w' := TapTestStep.step offline TapTestStep.Tick two_taps_nine_ticks in
  TapTestStep.run offline [TapTestStep.ClickTap 10100; TapTestStep.ClickTap 10200] w'
  = w'.
Proof.
  assert (Hiv : TapTestStep.interval (comp two_taps_nine_ticks) = Some [100; 200])
    by (vm_compute; reflexivity).
  assert (Htl : TapTestStep.timeLeft (comp two_taps_nine_ticks) <= 1)
    by (vm_compute; discriminate).
  exact (taps_after_expiry_are_ignored offline [100; 200] [10100; 10200]
           two_taps_nine_ticks Hiv Htl).
Defined.

(** X11. After a test that ended in an error message (too few taps, or a
    failed request) the step can be retried, but only once the message is
    gone: while it is shown "Start Test", taps and ticks do nothing; the
    pending timeout clears it, brings the instructions back and offers
    "Start Test" again; and the next start is a fresh test - countdown at
    10, counter at 0, no interval on record. *)
Theorem failed_test_is_retried_after_timeout (net : Network)
    (evs : list TapTestStep.Event) (a : App.State) :
  let w := TapTestStep.run net evs (TapTestStep.mounted a) in
  is_Some (TapTestStep.error (comp w)) ->
  (forall ev, match ev with TapTestStep.Timeout => True
                            | _ => TapTestStep.step net ev w = w end)
  /\ let w1 := TapTestStep.step net TapTestStep.Timeout w in
     TapTestStep.error (comp w1) = None
     /\ TapTestView.instructionsShown (comp w1) = true
     /\ TapTestView.startOffered (comp w1) = true
     /\ timers w1 = []
     /\ forall now1 now2,
          let s2 := comp (TapTestStep.step net
                            (TapTestStep.ClickStart now1 now2) w1) in
          TapTestStep.isActive s2 = true
          /\ TapTestStep.timeLeft s2 = 10
          /\ TapTestStep.tapCount s2 = 0
          /\ TapTestStep.tapTimestamps s2 = []
          /\ TapTestStep.interval s2 = Some []
          /\ TapTestStep.lastTapRef s2 = Some now2.
Proof.
  cbv zeta. intros Herr.
  pose proof (run_tap_consistent net evs a) as Hinv.
  set (w := TapTestStep.run net evs (TapTestStep.mounted a)) in *. clearbody w.
  destruct w as [[act tl cnt stamps ld err instr st0 lt iv] a0 snt tms].
  unfold tap_consistent in Hinv.
  cbn [comp TapTestStep.tapCount TapTestStep.tapTimestamps TapTestStep.timeLeft
       TapTestStep.loading TapTestStep.isActive TapTestStep.interval
       TapTestStep.error timers sent] in Hinv, Herr.
  destruct Hinv as (_ & _ & Hld & Hact & _). subst ld.
  destruct Herr as [e ->].
  destruct act; [destruct Hact as (_ & _ & Hnone & _); discriminate Hnone |].
  destruct Hact as [-> [[Hnone _] | [_ ->]]]; [discriminate Hnone |].
  split.
  - intros ev. destruct ev; cbn; first [reflexivity | exact I].
  - cbn. unfold TapTestStep.useEffect; cbn. rewrite Z.eqb_refl. cbn.
    repeat split; reflexivity.
Qed.

(** The sample test with two taps, after its expiry. *)
Lemma failed_test_is_retried_after_timeout_example :
  let w := TapTestStep.run offline
             ([TapTestStep.ClickStart 0 0; TapTestStep.ClickTap 100;
               TapTestStep.ClickTap 300] ++ repeat TapTestStep.Tick 10)
             (TapTestStep.mounted App.initial) in
  let w1 := TapTestStep.step offline TapTestStep.Timeout w in
  TapTestStep.error (comp w) = Some TapTestStep.not_enough_taps
  /\ TapTestView.startOffered (comp w1) = true.
Proof.
  cbv zeta. split; [vm_compute; reflexivity |].
  assert (Herr : is_Some
                   (TapTestStep.error
                      (comp (TapTestStep.run offline
                               ([TapTestStep.ClickStart 0 0; TapTestStep.ClickTap 100;
                                 TapTestStep.ClickTap 300] ++ repeat TapTestStep.Tick 10)
                               (TapTestStep.mounted App.initial))))).
  { exists TapTestStep.not_enough_taps. vm_compute. reflexivity. }
  destruct (failed_test_is_retried_after_timeout offline
              ([TapTestStep.ClickStart 0 0; TapTestStep.ClickTap 100;
                TapTestStep.ClickTap 300] ++ repeat TapTestStep.Tick 10)
              App.initial Herr) as (_ & _ & _ & H & _).
  exact H.
Defined.

(* ================================================================== *)
(** * Further properties of the spiral step *)
(* ================================================================== *)

(** X12. When the spiral analysis and the aggregation both succeed, one
    submission takes the wizard from the spiral step to the results page:
    the spiral result and the final record are stored, the earlier results
    are kept, exactly the two requests are sent (the image, then the three
    scores), no error is shown, and the drawing is untouched. *)
Theorem spiral_submission_reaches_results (net : Network)
    (w : World SpiralCanvasStep.State) (d : SubScoreResult) (f : Session) :
  SpiralCanvasStep.hasDrawn (comp w) = true ->
  analyze_spiral net (SpiralCanvasStep.canvas (comp w)) = Resolved d ->
  aggregate net (score <$> App.survey (App.testResults (app w)))
    (score <$> App.taps (App.testResults (app w))) (score d) = Resolved f ->
  let w' := SpiralCanvasStep.handleSubmit net w in
  App.currentStep (app w') = App.Results
  /\ App.testResults (app w')
     = App.mkResults (App.survey (App.testResults (app w)))
         (App.taps (App.testResults (app w))) (Some d) (Some f)
  /\ sent w'
     = sent w ++ [ PostAnalyzeSpiral (SpiralCanvasStep.canvas (comp w));
                   PostAggregate (score <$> App.survey (App.testResults (app w)))
                     (score <$> App.taps (App.testResults (app w))) (score d) ]
  /\ SpiralCanvasStep.error (comp w') = None
  /\ SpiralCanvasStep.canvas (comp w') = SpiralCanvasStep.canvas (comp w)
  /\ FinalDashboard.riskBadge (App.testResults (app w'))
     = Some (mkBadge (risk_level f) (FinalDashboard.getRiskGradient (risk_level f))).
Proof.
  intros Hd Hspiral Hagg. cbv zeta.
  unfold SpiralCanvasStep.handleSubmit.
  rewrite Hd. cbn [negb]. cbn [comp update SpiralCanvasStep.canvas
    SpiralCanvasStep.setLoading SpiralCanvasStep.setError].
  rewrite Hspiral. cbn [score]. rewrite Hagg. cbn.
  rewrite <- app_assoc. repeat split; reflexivity.
Qed.

(** The sample drawing submitted to a service that is up. *)
Lemma spiral_submission_reaches_results_example :
  App.currentStep (app (SpiralCanvasStep.handleSubmit all_up spiral_drawn))
  = App.Results.
Proof.
  exact (proj1 (spiral_submission_reaches_results all_up spiral_drawn
                  (mkSubScore 65 "spiral")
                  (mkSession "s-9" "2024-06-01T12:00:00" 35 50 65 50 "Moderate" "")
                  eq_refl eq_refl eq_refl)).
Defined.

(** X13. When the spiral analysis fails, nothing moves: the orchestrator is
    untouched (no spiral result stored, still on the spiral step), the
    aggregate endpoint is not called, the error shown is the detail of the
    failure or the fallback text, and the drawing is kept - so submitting
    again posts the very same image. *)
Theorem spiral_analysis_failure_changes_nothing (net : Network)
    (w : World SpiralCanvasStep.State) (e : AxiosError) :
  SpiralCanvasStep.hasDrawn (comp w) = true ->
  analyze_spiral net (SpiralCanvasStep.canvas (comp w)) = Rejected e ->
  let w' := SpiralCanvasStep.handleSubmit net w in
  app w' = app w
  /\ sent w' = sent w ++ [PostAnalyzeSpiral (SpiralCanvasStep.canvas (comp w))]
  /\ SpiralCanvasStep.error (comp w')
     = Some (detail_or e "Failed to analyze spiral. Please try again.")
  /\ SpiralCanvasStep.loading (comp w') = false
  /\ SpiralCanvasStep.canvas (comp w') = SpiralCanvasStep.canvas (comp w)
  /\ SpiralCanvasStep.hasDrawn (comp w') = true
  /\ sent (SpiralCanvasStep.handleSubmit net w')
     = sent w ++ [ PostAnalyzeSpiral (SpiralCanvasStep.canvas (comp w));
                   PostAnalyzeSpiral (SpiralCanvasStep.canvas (comp w)) ].
Proof.
  intros Hd Hspiral. cbv zeta.
  assert (Hfirst : SpiralCanvasStep.handleSubmit net w
                   = w |> update (SpiralCanvasStep.setLoading true)
                       |> update (SpiralCanvasStep.setError None)
                       |> send (PostAnalyzeSpiral (SpiralCanvasStep.canvas (comp w)))
                       |> update (SpiralCanvasStep.setError
                            (Some (detail_or e "Failed to analyze spiral. Please try again.")))
                       |> update (SpiralCanvasStep.setLoading false)).
  { unfold SpiralCanvasStep.handleSubmit. rewrite Hd. cbn [negb].
    cbn [comp update SpiralCanvasStep.canvas SpiralCanvasStep.setLoading
         SpiralCanvasStep.setError].
    rewrite Hspiral. reflexivity. }
  rewrite Hfirst.
  split; [reflexivity | split; [reflexivity | split; [reflexivity |
    split; [reflexivity | split; [reflexivity | split; [exact Hd |]]]]]].
  unfold SpiralCanvasStep.handleSubmit at 1.
  cbn [comp update send SpiralCanvasStep.hasDrawn SpiralCanvasStep.setLoading
       SpiralCanvasStep.setError SpiralCanvasStep.canvas].
  rewrite Hd. cbn [negb]. rewrite Hspiral. cbn.
  rewrite <- app_assoc. reflexivity.
Qed.

(** The sample drawing submitted while the service is down. *)
Lemma spiral_analysis_failure_changes_nothing_example :
  app (SpiralCanvasStep.handleSubmit offline spiral_drawn) = app spiral_drawn.
Proof.
  exact (proj1 (spiral_analysis_failure_changes_nothing offline spiral_drawn
                  (mkAxiosError None) eq_refl eq_refl)).
Defined.

(* ================================================================== *)
(** * Further properties of the history page *)
(* ================================================================== *)

(** X14. A load that fails does not erase what the page shows: the session
    list and the statistics stay as they were, the error message is set,
    the spinner goes away and "Refresh Data" is offered again. *)
Theorem failed_load_keeps_data (s : ResultsHistory.State) (n : nat)
    (e : AxiosError) :
  ResultsHistory.reachable s ->
  n ∈ ResultsHistory.inflight s ->
  let s' := ResultsHistory.handle (ResultsHistory.Settle n (Rejected e)) s in
  ResultsHistory.sessions s' = ResultsHistory.sessions s
  /\ ResultsHistory.statistics s' = ResultsHistory.statistics s
  /\ ResultsHistory.error s' = Some "Failed to load results history"
  /\ ResultsHistory.inflight s' = []
  /\ ResultsHistory.offered s' ResultsHistory.ClickRefresh = true.
Proof.
  intros Hreach Hn. cbv zeta.
  pose proof (ResultsHistory.reach_event s
                (ResultsHistory.Settle n (Rejected e)) Hreach
                (bool_decide_eq_true_2 _ Hn)) as Hnext.
  apply reachable_one_load_at_a_time in Hnext.
  cbn in *. rewrite (bool_decide_eq_true_2 _ Hn) in *. cbn in *.
  destruct Hnext as [(Hl & _) | [_ Hin]]; [discriminate Hl |].
  repeat split; try reflexivity. exact Hin.
Qed.

(** The first load fails: the page is empty, with the error, and can be
    refreshed. *)
Lemma failed_load_keeps_data_after_mount :
  let s := ResultsHistory.handle ResultsHistory.Mount ResultsHistory.initial in
  let s' := ResultsHistory.handle
              (ResultsHistory.Settle 0 (Rejected (mkAxiosError None))) s in
  ResultsHistory.sessions s' = []
  /\ ResultsHistory.offered s' ResultsHistory.ClickRefresh = true.
Proof.
  cbv zeta.
  assert (Hin : 0%nat ∈ ResultsHistory.inflight
                  (ResultsHistory.handle ResultsHistory.Mount ResultsHistory.initial)).
  { cbn. apply list_elem_of_singleton. reflexivity. }
  destruct (failed_load_keeps_data _ 0%nat (mkAxiosError None)
              ResultsHistory.reach_mount Hin) as (H1 & _ & _ & _ & H5).
  split; [exact H1 | exact H5].
Defined.

Lemma concat_replicate_snoc {A} (n : nat) (l : list A) :
  concat (replicate n l) ++ l = concat (replicate (S n) l).
Proof.
  induction n as [| n IH]; cbn.
  - rewrite app_nil_r. reflexivity.
  - rewrite <- app_assoc. cbn in IH. rewrite IH. reflexivity.
Qed.

(** X15. Every load of the history page sends exactly two reads - the
    sessions with limit 100, then the statistics - so the request log is
    that pair repeated once per load; and the session list and the
    statistics are always set together: as long as no statistics are there,
    the list is empty. *)
Theorem history_requests_come_in_pairs (s : ResultsHistory.State) :
  ResultsHistory.reachable s ->
  ResultsHistory.requests s
  = concat (replicate (ResultsHistory.issued s) one_load)
  /\ (ResultsHistory.statistics s = None -> ResultsHistory.sessions s = []).
Proof.
  induction 1 as [| s ev Hreach [IH1 IH2] Hoff].
  - split; [reflexivity | intros _; reflexivity].
  - destruct ev as [| | tab | n reply]; cbn in Hoff.
    + discriminate Hoff.
    + cbn. rewrite IH1.
      split; [exact (concat_replicate_snoc (ResultsHistory.issued s) one_load)
             | exact IH2].
    + cbn. split; [exact IH1 | exact IH2].
    + cbn. rewrite Hoff. destruct reply as [[l st] | e]; cbn.
      * split; [exact IH1 | intros H; discriminate H].
      * split; [exact IH1 | exact IH2].
Qed.

(** The mount and one refresh: two pairs of reads. *)
Lemma history_requests_come_in_pairs_example :
  let s := ResultsHistory.handle ResultsHistory.ClickRefresh
             (ResultsHistory.handle
                (ResultsHistory.Settle 0 (Resolved ([session_of_march], stats_of 1)))
                (ResultsHistory.handle ResultsHistory.Mount ResultsHistory.initial)) in
  ResultsHistory.requests s = one_load ++ one_load.
Proof.
  cbv zeta.
  assert (Hreach : ResultsHistory.reachable
                     (ResultsHistory.handle ResultsHistory.ClickRefresh
                        (ResultsHistory.handle
                           (ResultsHistory.Settle 0
                              (Resolved ([session_of_march], stats_of 1)))
                           (ResultsHistory.handle ResultsHistory.Mount
                              ResultsHistory.initial)))).
  { repeat (apply ResultsHistory.reach_event; [| reflexivity]).
    apply ResultsHistory.reach_mount. }
  exact (proj1 (history_requests_come_in_pairs _ Hreach)).
Defined.

(** X16. The radar chart and the trend chart agree on the latest session:
    whenever there is a session, the last point of the trend series is the
    projection of [sessions[0]], and the three axes of the radar carry the
    survey, tap and spiral values of that point; with no session there is
    neither a last point nor an axis. *)
Theorem radar_shows_last_trend_point
    (toLocaleDateString : string -> string) (sessions : list Session) :
  let trend := ResultsHistory.trendData toLocaleDateString sessions in
  last trend
  = ResultsHistory.trendPoint toLocaleDateString
      <$> ResultsHistory.latestSession sessions
  /\ map ResultsHistory.axis_value (ResultsHistory.latestScores sessions)
     = match last trend with
       | Some p => [ ResultsHistory.survey p; ResultsHistory.tap p;
                     ResultsHistory.spiral p ]
       | None => []
       end.
Proof.
  cbv zeta. unfold ResultsHistory.trendData.
  rewrite slice_last_map_reverse.
  assert (Hlast : last (map (ResultsHistory.trendPoint toLocaleDateString)
                          (reverse (take 30 sessions)))
                  = ResultsHistory.trendPoint toLocaleDateString
                      <$> ResultsHistory.latestSession sessions).
  { destruct sessions as [| x rest]; [reflexivity |].
    cbn [take]. rewrite reverse_cons, map_app. cbn [map].
    rewrite last_snoc. reflexivity. }
  split; [exact Hlast |].
  rewrite Hlast. unfold ResultsHistory.latestScores.
  destruct (ResultsHistory.latestSession sessions); reflexivity.
Qed.

Lemma Math_round_in_range (x : Q) :
  (0 <= x <= 100)%Q -> 0 <= JS.Math_round x <= 100.
Proof.
  intros [H1 H2]. unfold JS.Math_round. split.
  - change 0 with (Qfloor 0). apply Qfloor_resp_le. lra.
  - change 100 with (Qfloor (201 # 2)). apply Qfloor_resp_le. lra.
Qed.

(** [Math.round] is within one half of its argument. *)
Lemma Math_round_near (x : Q) :
  (inject_Z (JS.Math_round x) - (1 # 2) <= x)%Q
  /\ (x < inject_Z (JS.Math_round x) + (1 # 2))%Q.
Proof.
  unfold JS.Math_round.
  pose proof (Qfloor_le (x + (1 # 2))) as H1.
  pose proof (Qlt_floor (x + (1 # 2))) as H2.
  rewrite inject_Z_plus in H2. change (inject_Z 1) with 1%Q in H2.
  split; lra.
Qed.

(** X17. When the scores of the loaded sessions are within the 0-100
    contract, every value plotted stays within the [0, 100] domain of the
    charts: the points of the trend series, those of the comparison series,
    and the axes of the radar, none of which exceeds its [fullMark]. *)
Theorem chart_values_within_domain
    (toLocaleDateString : string -> string) (sessions : list Session) :
  Forall scores_in_range sessions ->
  Forall point_in_domain (ResultsHistory.trendData toLocaleDateString sessions)
  /\ Forall point_in_domain
       (ResultsHistory.comparisonData toLocaleDateString sessions)
  /\ Forall (fun ax => 0 <= ResultsHistory.axis_value ax
                       <= ResultsHistory.fullMark ax)
       (ResultsHistory.latestScores sessions).
Proof.
  intros Hall.
  assert (Hpoints : Forall point_in_domain
                      (map (ResultsHistory.trendPoint toLocaleDateString)
                         (reverse sessions))).
  { apply Forall_map. apply Forall_reverse.
    eapply Forall_impl; [exact Hall |].
    intros s (H1 & H2 & H3 & H4). unfold point_in_domain. cbn.
    repeat split; apply Math_round_in_range; assumption. }
  split; [| split].
  - unfold ResultsHistory.trendData, JS.slice_last.
    apply Forall_drop. exact Hpoints.
  - unfold ResultsHistory.comparisonData, ResultsHistory.trendData, JS.slice_last.
    apply Forall_drop. apply Forall_drop. exact Hpoints.
  - unfold ResultsHistory.latestScores, ResultsHistory.latestSession.
    destruct sessions as [| x rest]; [constructor |].
    inversion Hall as [| ? ? (H1 & H2 & H3 & H4) _]; subst.
    cbn. repeat constructor; cbn; apply Math_round_in_range; assumption.
Qed.

(** The two sample sessions are within the contract. *)
Lemma chart_values_within_domain_example :
  Forall point_in_domain
    (ResultsHistory.trendData (fun ts => ts) [session_of_april; session_of_march]).
Proof.
  refine (proj1 (chart_values_within_domain (fun ts => ts)
                   [session_of_april; session_of_march] _)).
  repeat constructor; cbn; lra.
Defined.

(* ================================================================== *)
(** * Properties of the progress stepper *)
(* ================================================================== *)

(** X18. The stepper follows the orchestrator: the step drawn at index [i]
    is marked current exactly when the wizard is at the pipeline position
    [i + 1] (survey, taps, spiral), and marked completed exactly when the
    wizard is at a later one of these three positions. For every other
    value of [currentStep] ([findIndex] yields -1) no step is marked. *)
Theorem stepper_marks_follow_pipeline (s : App.Step) (i : Z) :
  0 <= i ->
  (WizardContainer.isCurrent (WizardContainer.stepName s) i = true
   <-> App.position s = Some (S (Z.to_nat i)) /\ i < 3)
  /\ (WizardContainer.isCompleted (WizardContainer.stepName s) i = true
      <-> exists n, App.position s = Some n /\ (S (Z.to_nat i) < n <= 3)%nat).
Proof.
  intros Hi.
  unfold WizardContainer.isCurrent, WizardContainer.isCompleted.
  rewrite Z.eqb_eq, Z.ltb_lt.
  destruct s;
    match goal with
    | |- context [WizardContainer.currentIndex ?x] =>
        let c := eval vm_compute in (WizardContainer.currentIndex x) in
        change (WizardContainer.currentIndex x) with c
    end;
    cbn [App.position WizardContainer.stepName];
    (split; split;
     [ intros H; first [lia | split; [f_equal; lia | lia]]
     | intros [H1 H2]; first [discriminate H1 | injection H1 as H1; lia]
     | intros H; first [lia | eexists; split; [reflexivity | lia]]
     | intros [n [H1 H2]]; first [discriminate H1 | injection H1 as <-; lia] ]).
Qed.

(** On the tap step the second mark is the current one and the first is
    checked off. *)
Lemma stepper_marks_follow_pipeline_taps :
  WizardContainer.isCurrent "taps" 1 = true
  /\ WizardContainer.isCompleted "taps" 0 = true
  /\ WizardContainer.isCompleted "taps" 1 = false.
Proof.
  assert (H1 : 0 <= 1) by lia.
  destruct (stepper_marks_follow_pipeline App.Taps 1 H1) as [[_ Hcur] _].
  split; [apply Hcur; split; [reflexivity | lia] | split; reflexivity].
Defined.

(* ================================================================== *)
(** * Further properties of the dashboard *)
(* ================================================================== *)

Lemma below_is_not_le (threshold : Z) (score : Q) :
  (score < inject_Z threshold)%Q -> Qle_bool (inject_Z threshold) score = false.
Proof.
  intros H. destruct (Qle_bool (inject_Z threshold) score) eqn:E; [| reflexivity].
  apply Qle_bool_iff in E. lra.
Qed.

Lemma above_is_le (threshold : Z) (score : Q) :
  (inject_Z threshold <= score)%Q -> Qle_bool (inject_Z threshold) score = true.
Proof. intros H. apply Qle_bool_iff. exact H. Qed.

(** X19. On a card of the breakdown the colour is decided by the raw score
    and the number printed is the rounded score; the two can only disagree
    at the thresholds themselves. A card printing less than 30 is green, a
    card printing more than 30 is not green; a card printing less than 60
    is not red, a card printing more than 60 is red. *)
Theorem card_colour_matches_printed_number (name : string) (score : Q) :
  let card := FinalDashboard.testCard name score in
  (FinalDashboard.card_number card < 30 ->
   FinalDashboard.card_color card = "text-green-600")
  /\ (30 < FinalDashboard.card_number card ->
      FinalDashboard.card_color card <> "text-green-600")
  /\ (FinalDashboard.card_number card < 60 ->
      FinalDashboard.card_color card <> "text-red-600")
  /\ (60 < FinalDashboard.card_number card ->
      FinalDashboard.card_color card = "text-red-600").
Proof.
  cbv zeta. cbn [FinalDashboard.testCard FinalDashboard.card_number
                 FinalDashboard.card_color].
  destruct (Math_round_near score) as [Hlo Hhi].
  set (n := JS.Math_round score) in *.
  unfold FinalDashboard.getScoreColor.
  change 30%Q with (inject_Z 30). change 60%Q with (inject_Z 60).
  repeat split; intros Hn.
  - assert (H : (inject_Z n <= inject_Z 29)%Q) by (rewrite <- Zle_Qle; lia).
    rewrite below_is_not_le; [reflexivity |].
    change (inject_Z 30) with 30%Q. change (inject_Z 29) with 29%Q in H. lra.
  - assert (H : (inject_Z 31 <= inject_Z n)%Q) by (rewrite <- Zle_Qle; lia).
    rewrite above_is_le.
    + cbn [negb]. destruct (negb _); discriminate.
    + change (inject_Z 30) with 30%Q. change (inject_Z 31) with 31%Q in H. lra.
  - assert (H : (inject_Z n <= inject_Z 59)%Q) by (rewrite <- Zle_Qle; lia).
    rewrite (below_is_not_le 60);
      [| change (inject_Z 60) with 60%Q; change (inject_Z 59) with 59%Q in H; lra].
    destruct (negb _); discriminate.
  - assert (H : (inject_Z 61 <= inject_Z n)%Q) by (rewrite <- Zle_Qle; lia).
    change (inject_Z 61) with 61%Q in H.
    rewrite (above_is_le 30), (above_is_le 60);
      [reflexivity
      | change (inject_Z 60) with 60%Q; lra
      | change (inject_Z 30) with 30%Q; lra].
Qed.

(** X20. The history page and the dashboard treat the same risk levels as
    unknown: a level is painted with the gray fallback of the history badge
    exactly when it gets the fallback gradient of the dashboard, and exactly
    when it gets the fallback colour "gray". *)
Theorem risk_colour_tables_agree (level : string) :
  (ResultsHistory.getRiskBadgeColor level = JS.Str "#6b7280"
   <-> FinalDashboard.getRiskGradient level = JS.Str "from-gray-500 to-gray-600")
  /\ (ResultsHistory.getRiskBadgeColor level = JS.Str "#6b7280"
      <-> FinalDashboard.getRiskColor level = JS.Str "gray").
Proof.
  unfold ResultsHistory.getRiskBadgeColor, FinalDashboard.getRiskGradient,
    FinalDashboard.getRiskColor, JS.get.
  unfold ResultsHistory.RISK_COLORS, FinalDashboard.gradients,
    FinalDashboard.colors.
  cbn [JS.own].
  destruct (String.eqb "Low" level);
    [cbn; split; split; intros H; discriminate H |].
  destruct (String.eqb "Low-Moderate" level);
    [cbn; split; split; intros H; discriminate H |].
  destruct (String.eqb "Moderate" level);
    [cbn; split; split; intros H; discriminate H |].
  destruct (String.eqb "Moderate-High" level);
    [cbn; split; split; intros H; discriminate H |].
  destruct (String.eqb "High" level);
    [cbn; split; split; intros H; discriminate H |].
  destruct (existsb (String.eqb level) JS.Object_prototype).
  - cbn. split; split; intros H; discriminate H.
  - cbn. split; split; intros _; reflexivity.
Qed.

(* ================================================================== *)
(** * Properties of the button *)
(* ================================================================== *)

(** X21. Whatever its props, a button that is loading or disabled cannot be
    clicked, and the spinner and the icon are never shown together. A
    variant or a size listed in the tables selects its own classes; one that
    is in neither table (nor a name inherited from [Object.prototype]) is
    styled like the default button, primary and medium. *)
Theorem button_falls_back_to_defaults (p : Button.Props) :
  Button.loading p && Button.clickable p = false
  /\ Button.disabled p && Button.clickable p = false
  /\ Button.spinner (Button.render p) && Button.icon (Button.render p) = false
  /\ (forall c, In (Button.variant p, c) Button.variants ->
      Button.variantClass p = JS.Str c)
  /\ (forall c, In (Button.size p, c) Button.sizes ->
      Button.sizeClass p = JS.Str c)
  /\ (~ In (Button.variant p) (map fst Button.variants) ->
      ~ In (Button.variant p) JS.Object_prototype ->
      Button.variantClass p = Button.variantClass Button.defaults)
  /\ (~ In (Button.size p) (map fst Button.sizes) ->
      ~ In (Button.size p) JS.Object_prototype ->
      Button.sizeClass p = Button.sizeClass Button.defaults).
Proof.
  split; [| split; [| split; [| split; [| split; [| split]]]]].
  - unfold Button.clickable. cbn.
    destruct (Button.loading p), (Button.disabled p); reflexivity.
  - unfold Button.clickable. cbn.
    destruct (Button.loading p), (Button.disabled p); reflexivity.
  - cbn. destruct (Button.loading p), (Button.hasIcon p); reflexivity.
  - intros c Hin. unfold Button.variantClass.
    destruct p as [v sz l d i]. cbn [Button.variant] in *.
    unfold Button.variants in Hin.
    repeat (destruct Hin as [Hin | Hin];
            [injection Hin as <- <-; reflexivity |]).
    destruct Hin.
  - intros c Hin. unfold Button.sizeClass.
    destruct p as [v sz l d i]. cbn [Button.size] in *.
    unfold Button.sizes in Hin.
    repeat (destruct Hin as [Hin | Hin];
            [injection Hin as <- <-; reflexivity |]).
    destruct Hin.
  - intros Hv1 Hv2. unfold Button.variantClass, JS.get.
    rewrite (own_absent _ _ Hv1), (not_inherited _ Hv2). reflexivity.
  - intros Hs1 Hs2. unfold Button.sizeClass, JS.get.
    rewrite (own_absent _ _ Hs1), (not_inherited _ Hs2). reflexivity.
Qed.

(** A button asked for a variant and a size that do not exist. *)
Lemma button_falls_back_to_defaults_example :
  Button.sizeClass (Button.mkProps "fancy" "xl" false false true)
  = JS.Str "px-6 py-3 text-base".
Proof.
  assert (H : forall k l, forallb (fun x => negb (String.eqb x k)) l = true ->
                          ~ In k l).
  { intros k l Hall Hin. rewrite forallb_forall in Hall.
    specialize (Hall k Hin). rewrite String.eqb_refl in Hall. discriminate Hall. }
  destruct (button_falls_back_to_defaults
              (Button.mkProps "fancy" "xl" false false true))
    as (_ & _ & _ & _ & _ & _ & Hsize).
  exact (Hsize (H "xl" (map fst Button.sizes) eq_refl)
               (H "xl" JS.Object_prototype eq_refl)).
Defined.
